(** * temp2fa: the TOTP account store of [src/temp2fa.py]

    A shallow embedding of the core of [TOTPManager] (secret handling,
    key derivation, loading, the otpauth URI parsing of
    [extract_secret_from_image], the time countdown) and of the store
    manipulations done by [TOTPManagerGUI] (import, export, rename) and its
    dialogs ([RenameDialog.accept], [ManualEntryDialog.accept]).

    Python text is modelled by Rocq strings of ASCII characters.  The
    Python dict [self.secrets] is a [gmap string entry].  Fallible Python
    code that catches its own exceptions and returns a [bool] returns the
    same [bool] here, together with the new store. *)

From Stdlib Require Import ZArith Zquot QArith Qround Lia Ascii String.
From stdpp Require Import base gmap sets list strings pretty.

Open Scope string_scope.
Open Scope nat_scope.

(* ------------------------------------------------------------------ *)
(** ** Python string helpers *)

(** [s.replace(c, '')] for a one-character [c]. *)
Fixpoint remove_char (c : ascii) (s : string) : string :=
  match s with
  | EmptyString => EmptyString
  | String a s' =>
      if decide (a = c) then remove_char c s' else String a (remove_char c s')
  end.

(** [str.upper()] on ASCII characters. *)
Definition ascii_upper (a : ascii) : ascii :=
  let n := nat_of_ascii a in
  if (97 <=? n) && (n <=? 122) then ascii_of_nat (n - 32) else a.

Fixpoint upper (s : string) : string :=
  match s with
  | EmptyString => EmptyString
  | String a s' => String (ascii_upper a) (upper s')
  end.

(** [str.isspace()] on ASCII characters: \t \n \v \f \r, \x1c-\x1f and
    the space. *)
Definition py_isspace (a : ascii) : bool :=
  let n := nat_of_ascii a in
  ((9 <=? n) && (n <=? 13)) || ((28 <=? n) && (n <=? 32)).

Fixpoint lstrip_ws (s : string) : string :=
  match s with
  | EmptyString => EmptyString
  | String a s' => if py_isspace a then lstrip_ws s' else s
  end.

Definition rev_string (s : string) : string :=
  string_of_list_ascii (rev (list_ascii_of_string s)).

(** [str.strip()]. *)
Definition strip (s : string) : string :=
  rev_string (lstrip_ws (rev_string (lstrip_ws s))).

(** [s.lstrip(c)] / [s.rstrip(c)] for a one-character [c]. *)
Fixpoint lstrip_char (c : ascii) (s : string) : string :=
  match s with
  | EmptyString => EmptyString
  | String a s' => if decide (a = c) then lstrip_char c s' else s
  end.

Definition rstrip_char (c : ascii) (s : string) : string :=
  rev_string (lstrip_char c (rev_string s)).

(** [secret.replace(' ', '').replace('-', '').upper()], the cleaning done
    by [add_account_manual]. *)
Definition clean_secret (secret : string) : string :=
  upper (remove_char "-"%char (remove_char " "%char secret)).

(* ------------------------------------------------------------------ *)
(** ** TOTP construction: [pyotp.TOTP(s).now()]

    [pyotp.TOTP(s)] stores [s] without checking it; [now()] computes an
    HMAC keyed by [byte_secret()], which pads [s] with '=' to a multiple of
    8 characters and calls [base64.b32decode(s, casefold=True)].  The HMAC
    itself cannot fail, so the construction fails exactly when that
    decoding raises.  [b32decode] upper-cases, strips the trailing '=',
    rejects any remaining character outside A-Z2-7 and rejects a padding
    count outside {0, 1, 3, 4, 6}. *)

Definition b32_char (a : ascii) : bool :=
  let n := nat_of_ascii a in
  ((65 <=? n) && (n <=? 90)) || ((50 <=? n) && (n <=? 55)).

Fixpoint all_chars (p : ascii -> bool) (s : string) : bool :=
  match s with
  | EmptyString => true
  | String a s' => p a && all_chars p s'
  end.

Fixpoint repeat_char (n : nat) (c : ascii) : string :=
  match n with
  | O => EmptyString
  | S n' => String c (repeat_char n' c)
  end.

(** [OTP.byte_secret]'s padding. *)
Definition pad_secret (s : string) : string :=
  let missing := String.length s mod 8 in
  if decide (missing = 0) then s else s +:+ repeat_char (8 - missing) "="%char.

(** [base64.b32decode(s, casefold=True)] succeeds. *)
Definition b32decode_ok (s : string) : bool :=
  let l := String.length s in
  let u := upper s in
  let body := rstrip_char "="%char u in
  let padchars := l - String.length body in
  (l mod 8 =? 0) && all_chars b32_char body
  && existsb (Nat.eqb padchars) [0; 1; 3; 4; 6].

(** [pyotp.TOTP(s).now()] returns without raising. *)
Definition totp_ok (s : string) : bool := b32decode_ok (pad_secret s).

(* ------------------------------------------------------------------ *)
(** ** Records and the store *)

(** A timestamp, [time.time()]: seconds since the epoch. *)
Abbreviation timestamp := Q.

Record account_record := {
  rec_secret : string;
  rec_account : string;
  rec_issuer : string;
  rec_added : timestamp
}.

(** A value of [self.secrets]: the dict written by the add paths, or a
    bare string (legacy shape, treated by [generate_code] as the secret). *)
Inductive entry :=
| Rec (r : account_record)
| Bare (s : string).

Abbreviation store := (gmap string entry).

(* ------------------------------------------------------------------ *)
(** ** Key derivation

    Both add paths build [base = f"{issuer}_{account}"] and then run
    [name = base; counter = 1; while name in secrets:
       name = f"{base}_{counter}"; counter += 1]. *)

Definition key_base (issuer account : string) : string :=
  issuer +:+ "_" +:+ account.

(** The [i]-th key tried by the loop. *)
Definition candidate (base : string) (i : nat) : string :=
  match i with
  | O => base
  | S _ => base +:+ "_" +:+ pretty i
  end.

(** The loop [while taken(name): name = f"{base}_{counter}"; ...], run
    for at most [fuel] tests.  The add paths test [name in secrets];
    [rename_account] tests [name in secrets and name != account_key].
    With [fuel = size secrets] the last candidate is never taken (lemma
    [first_free_spec]), so the loop of the source never runs further. *)
Fixpoint first_free_from (taken : string -> bool) (base : string)
    (i fuel : nat) : string :=
  match fuel with
  | O => candidate base i
  | S fuel' =>
      if taken (candidate base i)
      then first_free_from taken base (S i) fuel'
      else candidate base i
  end.

(** [name in secrets]. *)
Definition in_store (secrets : store) (k : string) : bool :=
  bool_decide (is_Some (secrets !! k)).

Definition unique_key (secrets : store) (base : string) : string :=
  first_free_from (in_store secrets) base 0 (size secrets).

(* ------------------------------------------------------------------ *)
(** ** The two add paths of [TOTPManager] *)

(** The dict returned by [extract_secret_from_image]. *)
Record qr_data := {
  qr_secret : string;
  qr_account : string;
  qr_issuer : string
}.

(** [TOTPManager.add_account_from_qr]: validate [qr_data['secret']] with
    pyotp, derive the key, insert the record with [added = time.time()]. *)
Definition add_account_from_qr (secrets : store) (q : qr_data)
    (now : timestamp) : store * bool :=
  if totp_ok (qr_secret q) then
    let name := unique_key secrets (key_base (qr_issuer q) (qr_account q)) in
    (<[name := Rec {| rec_secret := qr_secret q;
                      rec_account := qr_account q;
                      rec_issuer := qr_issuer q;
                      rec_added := now |}]> secrets, true)
  else (secrets, false).

(** [TOTPManager.add_account_manual(name, secret, issuer)]. *)
Definition add_account_manual (secrets : store) (name secret issuer : string)
    (now : timestamp) : store * bool :=
  let clean := clean_secret secret in
  if totp_ok clean then
    let key := unique_key secrets (key_base issuer name) in
    (<[key := Rec {| rec_secret := clean;
                     rec_account := name;
                     rec_issuer := issuer;
                     rec_added := now |}]> secrets, true)
  else (secrets, false).

(* ------------------------------------------------------------------ *)
(** ** Manual entry: [ManualEntryDialog.accept] and
       [TOTPManagerGUI.show_manual_entry] *)

Definition MIN_SECRET_LENGTH : nat := 16.

(** The error messages of [ManualEntryDialog.accept]. *)
Inductive manual_error :=
| ErrNoAccount        (* "Please enter an account name" *)
| ErrNoSecret         (* "Please enter the secret key" *)
| ErrSecretTooShort.  (* "Secret key seems too short. ..." *)

(** [ManualEntryDialog.accept] on the three entry fields: either an error
    message (the dialog stays open, [result] stays [None]) or the
    [result] dict [(issuer, account, secret)]. *)
Definition manual_entry_accept (service account secret : string)
    : manual_error + (string * string * string) :=
  let service := if decide (strip service = "") then "Manual"
                 else strip service in
  let account_name := strip account in
  let secret := strip secret in
  if decide (account_name = "") then inl ErrNoAccount
  else if decide (secret = "") then inl ErrNoSecret
  else if String.length (remove_char "-"%char (remove_char " "%char secret))
          <? MIN_SECRET_LENGTH then inl ErrSecretTooShort
  else inr (service, account_name, secret).

(** The outcome of the dialog and of the add in [show_manual_entry]. *)
Inductive manual_outcome :=
| ManualRejected (e : manual_error)  (* the dialog's own error *)
| ManualInvalid                      (* "Invalid secret data" *)
| ManualAdded.                       (* added to [self.manager.secrets] *)

(** The first part of [TOTPManagerGUI.show_manual_entry]: the dialog, then
    [add_account_manual] on its result.  [ManualAdded] says that the
    account is now in the store; the [save_secrets] and
    [refresh_accounts_list] that follow, and the message the user then
    sees, are modelled by [show_manual_entry_gui]. *)
Definition show_manual_entry (secrets : store)
    (service account secret : string) (now : timestamp)
    : store * manual_outcome :=
  match manual_entry_accept service account secret with
  | inl e => (secrets, ManualRejected e)
  | inr (issuer, acc, sec) =>
      let '(secrets', ok) := add_account_manual secrets acc sec issuer now in
      (secrets', if ok then ManualAdded else ManualInvalid)
  end.

(** The message [show_manual_entry] ends with. *)
Inductive manual_message :=
| MsgRejected (e : manual_error)  (* the dialog's own error *)
| MsgInvalid                      (* "Invalid secret data" *)
| MsgSaveFailed                   (* "Failed to save account" *)
| MsgDialogError                  (* "Dialog Error": the refresh raised *)
| MsgAdded.                       (* status bar "Added: ..." *)

(** [TOTPManagerGUI.show_manual_entry] as a whole.  Once the account is
    added, [save_secrets()] returns [save_ok] (it catches its own errors
    and leaves the store as it is), then [refresh_accounts_list()] either
    returns ([refresh_ok]) or raises, which the [except] reports as
    "Dialog Error"; neither undoes the add. *)
Definition show_manual_entry_gui (secrets : store)
    (service account secret : string) (now : timestamp)
    (save_ok refresh_ok : bool) : store * manual_message :=
  let '(secrets', outcome) :=
    show_manual_entry secrets service account secret now in
  (secrets', match outcome with
             | ManualRejected e => MsgRejected e
             | ManualInvalid => MsgInvalid
             | ManualAdded =>
                 if save_ok then (if refresh_ok then MsgAdded else MsgDialogError)
                 else MsgSaveFailed
             end).

(* ------------------------------------------------------------------ *)
(** ** otpauth URI parsing: [extract_secret_from_image] after QR decoding

    [urlparse] and [parse_qs] are modelled on the strings this function
    hands them, which start with "otpauth://totp/": [urlsplit] removes
    every tab, CR and LF, takes "otpauth" as the scheme and "totp" as the
    netloc, cuts the fragment at the first '#' and the query at the first
    '?'; "otpauth" is not a scheme with ';' parameters.  [parse_qs] splits
    the query at '&', drops pieces without '=' and pieces with an empty
    value, replaces '+' by ' ' and percent-decodes names and values;
    [params.get(name, [d])[0]] is the first value of that name.  Percent
    decoding is modelled byte for byte (exact on ASCII results). *)

Fixpoint strip_prefix (p s : string) : option string :=
  match p, s with
  | EmptyString, _ => Some s
  | String a p', String b s' =>
      if decide (a = b) then strip_prefix p' s' else None
  | _, _ => None
  end.

(** [s.startswith(p)]. *)
Definition startswith (p s : string) : bool :=
  match strip_prefix p s with Some _ => true | None => false end.

(** [s.split(c, 1)] when [c in s]; [None] when [c] does not occur. *)
Fixpoint split_first (c : ascii) (s : string) : option (string * string) :=
  match s with
  | EmptyString => None
  | String a s' =>
      if decide (a = c) then Some (EmptyString, s')
      else match split_first c s' with
           | Some (l, r) => Some (String a l, r)
           | None => None
           end
  end.

(** [s.split(c)], all pieces. *)
Fixpoint split_all_aux (c : ascii) (s : string) (acc : string)
    : list string :=
  match s with
  | EmptyString => [rev_string acc]
  | String a s' =>
      if decide (a = c) then rev_string acc :: split_all_aux c s' EmptyString
      else split_all_aux c s' (String a acc)
  end.

Definition split_all (c : ascii) (s : string) : list string :=
  split_all_aux c s EmptyString.

(** [s.replace(a, b)] for one-character [a] and [b]. *)
Fixpoint replace_char (a b : ascii) (s : string) : string :=
  match s with
  | EmptyString => EmptyString
  | String x s' =>
      String (if decide (x = a) then b else x) (replace_char a b s')
  end.

Definition hex_value (a : ascii) : option nat :=
  let n := nat_of_ascii a in
  if (48 <=? n) && (n <=? 57) then Some (n - 48)
  else if (65 <=? n) && (n <=? 70) then Some (n - 55)
  else if (97 <=? n) && (n <=? 102) then Some (n - 87)
  else None.

(** [urllib.parse.unquote]: "%XY" with two hex digits becomes that byte,
    any other '%' stays. *)
Fixpoint unquote (s : string) : string :=
  match s with
  | EmptyString => EmptyString
  | String c rest =>
      if decide (c = "%"%char) then
        match rest with
        | String h1 (String h2 rest') =>
            match hex_value h1, hex_value h2 with
            | Some x, Some y => String (ascii_of_nat (16 * x + y)) (unquote rest')
            | _, _ => String c (unquote rest)
            end
        | _ => String c (unquote rest)
        end
      else String c (unquote rest)
  end.

(** One piece of [parse_qsl]. *)
Definition qs_pair (piece : string) : option (string * string) :=
  if decide (piece = "") then None
  else match split_first "="%char piece with
       | None => None
       | Some (n, v) =>
           if decide (v = "") then None
           else Some (unquote (replace_char "+"%char " "%char n),
                      unquote (replace_char "+"%char " "%char v))
       end.

(** [parse_qsl(query)]. *)
Definition parse_qsl (query : string) : list (string * string) :=
  omap qs_pair (if decide (query = "") then [] else split_all "&"%char query).

(** [parse_qs(query).get(name, [None])[0]]. *)
Definition qs_get (name query : string) : option string :=
  match filter (fun p => p.1 = name) (parse_qsl query) with
  | (_, v) :: _ => Some v
  | [] => None
  end.

Definition remove_unsafe (s : string) : string :=
  remove_char "010"%char (remove_char "013"%char (remove_char "009"%char s)).

(** [(urlparse(u).path, urlparse(u).query)] for [u] starting with
    "otpauth://totp/". *)
Definition urlparse_path_query (u : string) : string * string :=
  let u := remove_unsafe u in
  let rest := match strip_prefix "otpauth://totp" u with
              | Some r => r | None => u end in
  let rest := match split_first "#"%char rest with
              | Some (l, _) => l | None => rest end in
  match split_first "?"%char rest with
  | Some (p, q) => (p, q)
  | None => (rest, "")
  end.

(** [TOTPManager.extract_secret_from_image] once [decode_qr] has returned
    [qr_data] (a string, or [None]). *)
Definition extract_secret (qr : option string) : option qr_data :=
  match qr with
  | None => None
  | Some raw =>
      if negb (startswith "otpauth://totp/" raw) then None
      else
        let '(path, query) := urlparse_path_query raw in
        let secret := qs_get "secret" query in
        let issuer := default "Unknown" (qs_get "issuer" query) in
        let account_name := lstrip_char "/"%char path in
        let '(issuer, account_name) :=
          match split_first ":"%char account_name with
          | Some (issuer_from_path, acc) =>
              (if decide (issuer = "Unknown") then issuer_from_path
               else issuer, acc)
          | None => (issuer, account_name)
          end in
        match secret with
        | None => None
        | Some s =>
            if decide (s = "") then None
            else Some {| qr_secret := s; qr_account := account_name;
                         qr_issuer := issuer |}
        end
  end.

(* ------------------------------------------------------------------ *)
(** ** Loading: [TOTPManager.load_secrets]

    [self.secrets = data] adopts whatever JSON value the file holds, so
    for loading the store is a JSON value. *)

#[local] Set Warnings "-register-all".

Inductive json :=
| JNull
| JBool (b : bool)
| JNum (q : Q)
| JStr (s : string)
| JArr (l : list json)
| JObj (fields : list (string * json)).

(** The backing file as [load_secrets] finds it. *)
Inductive storage_file :=
| FileMissing                 (* [os.path.exists] is false *)
| FileUnreadable              (* [open] or [json.load] raises *)
| FileJson (data : json).     (* [json.load] returns [data] *)

(** [key in data] for a JSON object. *)
Definition has_key (k : string) (fields : list (string * json)) : bool :=
  existsb (fun p => bool_decide (p.1 = k)) fields.

(** [load_secrets] on the current [self.secrets]: the new [self.secrets]
    and the returned [bool].  The [except] branch logs and returns [False]
    without assigning [self.secrets]. *)
Definition load_secrets (secrets : json) (f : storage_file) : json * bool :=
  match f with
  | FileMissing => (JObj [], true)
  | FileUnreadable => (secrets, false)
  | FileJson data =>
      match data with
      | JObj fields =>
          if has_key "salt" fields && has_key "data" fields
          then (JObj [], true)
          else (data, true)
      | _ => (data, true)
      end
  end.

(** [TOTPManagerGUI.__init__]: [TOTPManager()] sets [self.secrets = {}],
    then [self.manager.load_secrets()] is called once. *)
Definition startup_load (f : storage_file) : json * bool :=
  load_secrets (JObj []) f.

(** [d[k] = v] on a dict given as its list of items in insertion order. *)
Fixpoint dict_set (k : string) (v : json) (d : list (string * json))
    : list (string * json) :=
  match d with
  | [] => [(k, v)]
  | (k', v') :: d' =>
      if decide (k' = k) then (k, v) :: d' else (k', v') :: dict_set k v d'
  end.

(** The dict [json.load] builds from the members of an object: a repeated
    name keeps its first position and its last value. *)
Definition dict_of_pairs (fields : list (string * json))
    : list (string * json) :=
  fold_left (fun d p => dict_set p.1 p.2 d) fields [].

Fixpoint dict_get (k : string) (d : list (string * json)) : option json :=
  match d with
  | [] => None
  | (k', v) :: d' => if decide (k' = k) then Some v else dict_get k d'
  end.

(** [generate_code] on a value [data] of the loaded document returns
    (rather than raises): a dict must have a "secret" ([data['secret']]
    raises [KeyError] otherwise), and pyotp raises [TypeError] on a secret
    that is not a [str] ([len] of a number, [None] or a bool; [+ "="] or
    [b32decode] of a list or a dict). *)
Definition json_code_ok (data : json) : bool :=
  match data with
  | JObj fields =>
      match dict_get "secret" (dict_of_pairs fields) with
      | Some (JStr s) => totp_ok s
      | _ => false
      end
  | JStr s => totp_ok s
  | _ => false
  end.

(** [refresh_accounts_list()], run by [TOTPManagerGUI.__init__] right after
    [load_secrets()], raises on the loaded value [secrets] when this is
    [true]: [list_accounts] calls [self.secrets.items()], which only a dict
    has, and [generate_code] runs for every key.  (It may also raise for
    other reasons, e.g. an [added] that [datetime.fromtimestamp] rejects,
    which this does not cover.)  The exception leaves [__init__] and
    [main] reports "Fatal Error". *)
Definition refresh_raises (secrets : json) : bool :=
  match secrets with
  | JObj fields => existsb (fun p => negb (json_code_ok p.2)) (dict_of_pairs fields)
  | _ => true
  end.

(* ------------------------------------------------------------------ *)
(** ** Export and import: [TOTPManagerGUI.export_accounts] and
       [TOTPManagerGUI.import_accounts]

    The document is written with [json.dump] and read back with
    [json.load]; on the values the store holds (strings and finite floats
    in string-keyed dicts) this is the identity, so the document is
    modelled as the Python dict itself. *)

Record export_doc := {
  doc_version : string;
  doc_accounts : store;
  doc_exported_at : timestamp
}.

(** [None]: "No accounts to export" (an empty [self.manager.secrets]). *)
Definition export_accounts (secrets : store) (now : timestamp)
    : option export_doc :=
  if decide (secrets = ∅) then None
  else Some {| doc_version := "1.0"; doc_accounts := secrets;
               doc_exported_at := now |}.

(** The answer to [messagebox.askyesnocancel] ("Yes = Replace conflicts,
    No = Skip conflicts, Cancel = Abort"). *)
Inductive conflict_choice := ChooseReplace | ChooseSkip | ChooseCancel.

(** [import_accounts] on a read document: the new [self.manager.secrets]
    ([dict.update] lets the imported values win). *)
Definition import_accounts (secrets : store) (doc : export_doc)
    (choice : conflict_choice) : store :=
  let imported := doc_accounts doc in
  let conflicts := filter (fun kv => is_Some (secrets !! kv.1)) imported in
  if decide (conflicts = ∅) then imported ∪ secrets
  else match choice with
       | ChooseCancel => secrets
       | ChooseSkip =>
           filter (fun kv => secrets !! kv.1 = None) imported ∪ secrets
       | ChooseReplace => imported ∪ secrets
       end.

(* ------------------------------------------------------------------ *)
(** ** Renaming: the store update of [TOTPManagerGUI.rename_account]

    run with the [result] of [RenameDialog] ([new_service],
    [new_account]). *)

Inductive rename_result :=
| RenameNotFound                            (* "Account not found" *)
| RenameCrash                               (* [str] has no [.copy()] *)
| RenameDone (secrets : store) (new_key : string).

Definition rename_account (secrets : store)
    (account_key new_service new_account : string) : rename_result :=
  match secrets !! account_key with
  | None => RenameNotFound
  | Some (Bare _) => RenameCrash
  | Some (Rec r) =>
      let account_data := {| rec_secret := rec_secret r;
                             rec_account := new_account;
                             rec_issuer := new_service;
                             rec_added := rec_added r |} in
      let new_key :=
        first_free_from
          (fun k => in_store secrets k && bool_decide (k <> account_key))
          (key_base new_service new_account) 0 (size secrets) in
      let secrets' :=
        if decide (new_key = account_key) then secrets
        else delete account_key secrets in
      RenameDone (<[new_key := Rec account_data]> secrets') new_key
  end.

(* ------------------------------------------------------------------ *)
(** ** Countdown: [TOTPManager.get_time_remaining] *)

Definition TOTP_PERIOD : Z := 30.

(** [int(t)] on a float: truncation toward zero. *)
Definition py_int (t : Q) : Z := Z.quot (Qnum t) (Zpos (Qden t)).

(** [TOTP_PERIOD - (int(time.time()) % TOTP_PERIOD)] at [time.time() = now];
    Python's [%] with a positive divisor is [Z.modulo]. *)
Definition get_time_remaining (now : timestamp) : Z :=
  TOTP_PERIOD - (py_int now mod TOTP_PERIOD).

(* ------------------------------------------------------------------ *)
(** ** Auxiliary definitions used in the statements *)

(** The record written by [add_account_manual]. *)
Definition manual_record (name secret issuer : string) (now : timestamp)
    : entry :=
  Rec {| rec_secret := clean_secret secret; rec_account := name;
         rec_issuer := issuer; rec_added := now |}.

(** The characters the dialog counts: [s.replace(' ', '').replace('-', '')]. *)
Definition kept (s : string) : string :=
  remove_char "-"%char (remove_char " "%char s).

(** The issuer [extract_secret] picks when the label has a colon. *)
Definition issuer_with_label (query issuer_from_path : string) : string :=
  match qs_get "issuer" query with
  | Some i => if decide (i = "Unknown") then issuer_from_path else i
  | None => issuer_from_path
  end.

(** The record [rename_account] writes: [account_data] with the new issuer
    and account. *)
Definition renamed_record (r : account_record) (svc acc : string) : entry :=
  Rec {| rec_secret := rec_secret r; rec_account := acc; rec_issuer := svc;
         rec_added := rec_added r |}.

(* ------------------------------------------------------------------ *)
(** ** The other store operations of [TOTPManager] *)

(** [TOTPManager.remove_account]. *)
Definition remove_account (secrets : store) (account_key : string)
    : store * bool :=
  if in_store secrets account_key then (delete account_key secrets, true)
  else (secrets, false).

(** The secret [generate_code] hands to pyotp: [data['secret']] for a
    dict, the string itself for a bare string. *)
Definition entry_secret (e : entry) : string :=
  match e with
  | Rec r => rec_secret r
  | Bare s => s
  end.

(** The outcome of [TOTPManager.generate_code]: [None] for a missing key,
    the exception pyotp raises (it is not caught), or the code
    [pyotp.TOTP(secret).now()] computed from [secret] (the HMAC itself is
    not modelled, only the secret it is keyed by). *)
Inductive code_result :=
| CodeMissing
| CodeRaises
| CodeFor (secret : string).

Definition generate_code (secrets : store) (account_key : string)
    : code_result :=
  match secrets !! account_key with
  | None => CodeMissing
  | Some data =>
      let secret := entry_secret data in
      if totp_ok secret then CodeFor secret else CodeRaises
  end.

(** One value of [list_accounts]. *)
Record account_info := {
  info_account : string;
  info_issuer : string;
  info_added : timestamp
}.

(** [TOTPManager.list_accounts]; the records written by the add paths
    carry all three fields, so [data.get(field, default)] is the field. *)
Definition list_accounts (secrets : store) : gmap string account_info :=
  map_imap (fun key data =>
    Some (match data with
          | Rec r => {| info_account := rec_account r;
                        info_issuer := rec_issuer r;
                        info_added := rec_added r |}
          | Bare _ => {| info_account := key; info_issuer := "Unknown";
                         info_added := 0 |}
          end)) secrets.

(* ------------------------------------------------------------------ *)
(** ** The rename dialog: [RenameDialog.accept] and the GUI's
       [rename_account] *)

Inductive rename_dialog_result :=
| RenameDialogError            (* blank service or account: stays open *)
| RenameDialogUnchanged        (* nothing changed: closed, no [result] *)
| RenameDialogResult (service account : string).

Definition is_digit (a : ascii) : bool :=
  let n := nat_of_ascii a in (48 <=? n) && (n <=? 57).

(** The digits of a base-10 [int(s)]: decimal digits, with single '_'
    allowed between two digits. *)
Fixpoint digits_value (s : string) (acc : Z) (after_digit : bool)
    : option Z :=
  match s with
  | EmptyString => if after_digit then Some acc else None
  | String a s' =>
      if is_digit a
      then digits_value s' (10 * acc + Z.of_nat (nat_of_ascii a - 48)) true
      else if bool_decide (a = "_"%char) && after_digit
      then digits_value s' acc false
      else None
  end.

(** [int(s)] on ASCII text: surrounding whitespace, an optional sign, then
    the digits; [None] where it raises [ValueError]. *)
Definition py_int_of_string (s : string) : option Z :=
  match strip s with
  | String a r =>
      if decide (a = "-"%char) then option_map Z.opp (digits_value r 0 false)
      else if decide (a = "+"%char) then digits_value r 0 false
      else digits_value (String a r) 0 false
  | EmptyString => None
  end.

(** A cell read back from the tree: [ttk]'s [_convert_stringval] returns
    [int(value)] when that succeeds and the string otherwise. *)
Inductive tk_value :=
| TkStr (s : string)
| TkInt (z : Z).

Definition tk_convert (s : string) : tk_value :=
  match py_int_of_string s with
  | Some z => TkInt z
  | None => TkStr s
  end.

(** [tk.StringVar(value=v).get()], the text an entry field starts with:
    [str(v)]. *)
Definition tk_str (v : tk_value) : string :=
  match v with
  | TkStr s => s
  | TkInt z => pretty z
  end.

(** [s == v] for a [str] [s]: a [str] never equals an [int]. *)
Definition str_eq_value (s : string) (v : tk_value) : bool :=
  match v with
  | TkStr t => bool_decide (s = t)
  | TkInt _ => false
  end.

(** [RenameDialog.accept] on the two entry fields, given the
    [current_service] and [current_account] it was opened with. *)
Definition rename_dialog_accept (current_service current_account : tk_value)
    (service account : string) : rename_dialog_result :=
  let service := strip service in
  let account := strip account in
  if decide (service = "") then RenameDialogError
  else if decide (account = "") then RenameDialogError
  else if str_eq_value service current_service
          && str_eq_value account current_account
  then RenameDialogUnchanged
  else RenameDialogResult service account.

(** [values[0]] and [values[1]] of [self.tree.item(item)['values']] for the
    row of [account_key]: the [issuer] and [account] that
    [refresh_accounts_list] took from [list_accounts], read back through
    [tk_convert]. *)
Definition tree_row (secrets : store) (account_key : string)
    : option (tk_value * tk_value) :=
  match list_accounts secrets !! account_key with
  | Some info => Some (tk_convert (info_issuer info),
                       tk_convert (info_account info))
  | None => None
  end.

(** [TOTPManagerGUI.rename_account] on the row of [account_key], with the
    two entry fields as the user leaves them: [None] when nothing happens
    (an empty [account_key] is falsy, or the dialog gives no [result]). *)
Definition rename_account_gui (secrets : store)
    (account_key service account : string) : option rename_result :=
  if decide (account_key = "") then None
  else match tree_row secrets account_key with
       | None => None
       | Some (cs, ca) =>
           match rename_dialog_accept cs ca service account with
           | RenameDialogResult s a =>
               Some (rename_account secrets account_key s a)
           | _ => None
           end
       end.

(* ------------------------------------------------------------------ *)
(** ** Auxiliary predicates used in the statements of the extras *)

(** Every stored secret passes pyotp's check. *)
Definition secrets_valid (secrets : store) : Prop :=
  map_Forall (fun _ e => totp_ok (entry_secret e) = true) secrets.

#[global] Instance secrets_valid_dec (secrets : store) :
  Decision (secrets_valid secrets).
Proof. unfold secrets_valid. apply map_Forall_dec. intros _ e. apply _. Defined.

(** [c not in s]. *)
Definition no_char (c : ascii) (s : string) : bool :=
  all_chars (fun a => negb (bool_decide (a = c))) s.

(** A lowercase ASCII letter, the characters [str.upper()] changes. *)
Definition is_lower (a : ascii) : bool :=
  let n := nat_of_ascii a in (97 <=? n) && (n <=? 122).

(** The label of a URI: no query, fragment or removed character. *)
Definition plain_label (label : string) : bool :=
  no_char "?"%char label && no_char "#"%char label
  && no_char "009"%char label && no_char "010"%char label
  && no_char "013"%char label.

(** A query value that [parse_qs] returns unchanged. *)
Definition plain_value (v : string) : bool :=
  negb (bool_decide (v = "")) && plain_label v
  && no_char "&"%char v && no_char "%"%char v && no_char "+"%char v.

(** The otpauth URI an authenticator exports. *)
Definition otpauth_uri (label secret issuer : string) : string :=
  "otpauth://totp/" +:+ label +:+ "?secret=" +:+ secret +:+ "&issuer="
  +:+ issuer.

(* ================================================================== *)
(** * Properties *)

(** ** Sanity checks on concrete inputs *)

Example totp_ok_short : totp_ok "SHORT" = true.
Proof. reflexivity. Qed.
Example totp_ok_bad : totp_ok "ABC" = false.
Proof. reflexivity. Qed.
Example totp_ok_jb : totp_ok "JBSWY3DPEHPK3PXP" = true.
Proof. reflexivity. Qed.
Example cand2 : candidate "A_b" 2 = "A_b_2".
Proof. reflexivity. Qed.

Example extract_ex :
  extract_secret (Some "otpauth://totp/Example:alice@example.com?secret=JBSWY3DPEHPK3PXP&issuer=Example")
  = Some {| qr_secret := "JBSWY3DPEHPK3PXP"; qr_account := "alice@example.com";
            qr_issuer := "Example" |}.
Proof. reflexivity. Qed.
Example extract_ex2 :
  extract_secret (Some "otpauth://totp/Ex:bob?issuer=Unknown&secret=AB%43D&x#f")
  = Some {| qr_secret := "ABCD"; qr_account := "bob"; qr_issuer := "Ex" |}.
Proof. reflexivity. Qed.

(** ** The key derivation loop *)

Lemma string_length_app (s1 s2 : string) :
  String.length (s1 +:+ s2) = String.length s1 + String.length s2.
Proof. induction s1; simpl; auto. Qed.

Lemma candidate_inj (base : string) (i j : nat) :
  candidate base i = candidate base j -> i = j.
Proof.
  destruct i as [|i], j as [|j]; simpl; intros H; auto.
  - apply (f_equal String.length) in H.
    rewrite !string_length_app in H. simpl in H. lia.
  - apply (f_equal String.length) in H.
    rewrite !string_length_app in H. simpl in H. lia.
  - apply (inj (String.append base)) in H.
    apply (inj (String.append "_")) in H.
    by apply (inj pretty) in H.
Qed.

Lemma first_free_from_spec (taken : string -> bool) (base : string)
    (fuel i : nat) :
  exists j, i <= j <= i + fuel /\
    first_free_from taken base i fuel = candidate base j /\
    (forall m, i <= m < j -> taken (candidate base m) = true) /\
    (j < i + fuel -> taken (candidate base j) = false).
Proof.
  revert i; induction fuel as [|fuel IH]; intros i; simpl.
  - exists i. repeat split; intros; lia.
  - destruct (taken (candidate base i)) eqn:Ht.
    + destruct (IH (S i)) as (j & Hj & Heq & Hbefore & Hlast).
      exists j. split; [lia|]. split; [done|]. split.
      * intros m Hm. destruct (decide (m = i)) as [->|Hne]; auto.
        apply Hbefore. lia.
      * intros Hlt. apply Hlast. lia.
    + exists i. split; [lia|]. split; [done|]. split; [intros; lia|auto].
Qed.

(** Pigeonhole: the candidates [0..n] are [n+1] distinct keys, so they
    do not all fit in a store of size [n]. *)
Lemma candidates_not_all_in (secrets : store) (base : string) :
  ~ (forall m, m <= size secrets -> in_store secrets (candidate base m) = true).
Proof.
  intros Hall.
  set (X := list_to_set (candidate base <$> seq 0 (S (size secrets))) : gset string).
  assert (HX : X ⊆ dom secrets).
  { intros k Hk. subst X.
    apply elem_of_list_to_set, list_elem_of_fmap in Hk as (m & -> & Hm).
    apply elem_of_seq in Hm.
    specialize (Hall m ltac:(lia)). unfold in_store in Hall.
    apply bool_decide_eq_true in Hall. by apply elem_of_dom. }
  apply subseteq_size in HX.
  rewrite size_dom in HX. subst X.
  rewrite size_list_to_set in HX.
  - rewrite length_fmap, length_seq in HX. lia.
  - apply NoDup_fmap_2_strong; [|apply NoDup_seq].
    intros a b _ _ H. by apply candidate_inj in H.
Qed.

(** The loop ends at the first candidate that is not taken. *)
Lemma first_free_spec (secrets : store) (taken : string -> bool)
    (base : string) :
  (forall k, taken k = true -> in_store secrets k = true) ->
  exists j, first_free_from taken base 0 (size secrets) = candidate base j /\
    taken (candidate base j) = false /\
    (forall m, m < j -> taken (candidate base m) = true).
Proof.
  intros Hsub.
  destruct (first_free_from_spec taken base (size secrets) 0)
    as (j & Hj & Heq & Hbefore & Hlast).
  exists j. split; [done|]. split.
  - destruct (decide (j < size secrets)) as [Hlt|Hge]; [by apply Hlast|].
    destruct (taken (candidate base j)) eqn:Ht; [|done].
    exfalso. apply (candidates_not_all_in secrets base).
    intros m Hm. apply Hsub.
    destruct (decide (m = j)) as [->|Hne]; [done|]. apply Hbefore. lia.
  - intros m Hm. apply Hbefore. lia.
Qed.

Lemma unique_key_spec (secrets : store) (base : string) :
  exists j, unique_key secrets base = candidate base j /\
    secrets !! candidate base j = None /\
    (forall m, m < j -> is_Some (secrets !! candidate base m)).
Proof.
  destruct (first_free_spec secrets (in_store secrets) base)
    as (j & Heq & Hfree & Hbefore); [done|].
  exists j. unfold unique_key. split; [done|]. split.
  - unfold in_store in Hfree. apply bool_decide_eq_false in Hfree.
    by apply eq_None_not_Some.
  - intros m Hm. specialize (Hbefore m Hm). unfold in_store in Hbefore.
    by apply bool_decide_eq_true in Hbefore.
Qed.

Lemma unique_key_fresh (secrets : store) (base : string) :
  secrets !! unique_key secrets base = None.
Proof. by destruct (unique_key_spec secrets base) as (j & -> & ? & _). Qed.

(** The loop stops at candidate [i] when [i] is free and all earlier
    candidates are taken. *)
Lemma unique_key_first (secrets : store) (base : string) (i : nat) :
  secrets !! candidate base i = None ->
  (forall m, m < i -> is_Some (secrets !! candidate base m)) ->
  unique_key secrets base = candidate base i.
Proof.
  intros Hfree Hbefore.
  destruct (unique_key_spec secrets base) as (j & Heq & Hj & Hjbefore).
  rewrite Heq. f_equal.
  destruct (Nat.lt_trichotomy i j) as [Hlt|[->|Hgt]]; [|done|].
  - specialize (Hjbefore i Hlt). rewrite Hfree in Hjbefore.
    by destruct Hjbefore.
  - specialize (Hbefore j Hgt). rewrite Hj in Hbefore. by destruct Hbefore.
Qed.

Lemma add_account_manual_ok (secrets : store) (name secret issuer : string)
    (now : timestamp) :
  totp_ok (clean_secret secret) = true ->
  add_account_manual secrets name secret issuer now =
  (<[unique_key secrets (key_base issuer name) :=
      manual_record name secret issuer now]> secrets, true).
Proof. intros H. unfold add_account_manual. by rewrite H. Qed.

(** ** C4: key suffixing on add *)

(** C4 (counterexample): with "A_b" and "A_b_1" already in the store,
    adding account "b" of issuer "A" stores it under "A_b_2", not under the
    "_1" key. *)
Lemma add_suffix_skips_taken_one :
  let S : store := <["A_b_1" := Bare "KRSXG5CTMVRXEZLU"]>
                     (<["A_b" := Bare "JBSWY3DPEHPK3PXP"]> ∅) in
  add_account_manual S "b" "JBSWY3DPEHPK3PXP" "A" 0 =
  (<["A_b_2" := manual_record "b" "JBSWY3DPEHPK3PXP" "A" 0]> S, true)
  /\ "A_b_2" <> "A_b_1".
Proof. split; [vm_compute; reflexivity | discriminate]. Qed.

(** C4 (amended): both add paths store the new record under the first of
    [base], [base_1], [base_2], ... ([base = f"{issuer}_{account}"]) that
    is absent from the store, so an add never overwrites a record; from a
    store holding none of [base], [base_1], [base_2], three adds of the same
    pair land under [base], [base_1] and [base_2]. *)
Theorem add_key_suffixing (S : store) (issuer account : string) :
  let base := key_base issuer account in
  (exists j, unique_key S base = candidate base j /\
     S !! candidate base j = None /\
     (forall m, m < j -> is_Some (S !! candidate base m))) /\
  (forall secret now S',
     add_account_manual S account secret issuer now = (S', true) ->
     exists r, S' = <[unique_key S base := r]> S /\
               S !! unique_key S base = None) /\
  (forall secret now S',
     add_account_from_qr S {| qr_secret := secret; qr_account := account;
                              qr_issuer := issuer |} now = (S', true) ->
     exists r, S' = <[unique_key S base := r]> S /\
               S !! unique_key S base = None) /\
  (forall secret t1 t2 t3,
     totp_ok (clean_secret secret) = true ->
     S !! candidate base 0 = None ->
     S !! candidate base 1 = None ->
     S !! candidate base 2 = None ->
     let S1 := (add_account_manual S account secret issuer t1).1 in
     let S2 := (add_account_manual S1 account secret issuer t2).1 in
     (add_account_manual S2 account secret issuer t3).1 =
     <[candidate base 2 := manual_record account secret issuer t3]>
       (<[candidate base 1 := manual_record account secret issuer t2]>
         (<[candidate base 0 := manual_record account secret issuer t1]> S))).
Proof.
  intros base. split; [apply unique_key_spec|]. split; [|split].
  - intros secret now S' H. unfold add_account_manual in H.
    destruct (totp_ok _); [|discriminate].
    injection H as <-. eexists. split; [reflexivity|].
    apply unique_key_fresh.
  - intros secret now S' H. unfold add_account_from_qr in H. simpl in H.
    destruct (totp_ok _); [|discriminate].
    injection H as <-. eexists. split; [reflexivity|].
    apply unique_key_fresh.
  - intros secret t1 t2 t3 Hok H0 H1 H2 S1 S2.
    assert (Hne01 : candidate base 0 <> candidate base 1)
      by (intros E; apply candidate_inj in E; lia).
    assert (Hne02 : candidate base 0 <> candidate base 2)
      by (intros E; apply candidate_inj in E; lia).
    assert (Hne12 : candidate base 1 <> candidate base 2)
      by (intros E; apply candidate_inj in E; lia).
    assert (E1 : S1 = <[candidate base 0 :=
                         manual_record account secret issuer t1]> S).
    { subst S1. rewrite add_account_manual_ok by done. simpl.
      f_equal. apply (unique_key_first S base 0); [done|]. intros m Hm; lia. }
    assert (E2 : S2 = <[candidate base 1 :=
                         manual_record account secret issuer t2]> S1).
    { subst S2. rewrite add_account_manual_ok by done. simpl.
      f_equal. apply (unique_key_first _ base 1).
      - rewrite E1, lookup_insert_ne by done. done.
      - intros m Hm. assert (m = 0) as -> by lia.
        rewrite E1, lookup_insert_eq. done. }
    rewrite add_account_manual_ok by done. cbn [fst].
    fold base. rewrite (unique_key_first S2 base 2).
    + by rewrite E2, E1.
    + rewrite E2, lookup_insert_ne by done.
      rewrite E1, lookup_insert_ne by done. done.
    + intros m Hm. rewrite E2.
      destruct (decide (m = 1)) as [->|Hm1].
      * by rewrite lookup_insert_eq.
      * assert (m = 0) as -> by lia.
        rewrite lookup_insert_ne by done. rewrite E1, lookup_insert_eq. done.
Qed.

Lemma add_key_suffixing_witness :
  totp_ok (clean_secret "JBSWY3DPEHPK3PXP") = true /\
  (add_account_manual
     (add_account_manual
        (add_account_manual ∅ "bob" "JBSWY3DPEHPK3PXP" "Test" 1).1
        "bob" "JBSWY3DPEHPK3PXP" "Test" 2).1
     "bob" "JBSWY3DPEHPK3PXP" "Test" 3).1 =
  <[candidate (key_base "Test" "bob") 2 :=
      manual_record "bob" "JBSWY3DPEHPK3PXP" "Test" 3]>
    (<[candidate (key_base "Test" "bob") 1 :=
        manual_record "bob" "JBSWY3DPEHPK3PXP" "Test" 2]>
      (<[candidate (key_base "Test" "bob") 0 :=
          manual_record "bob" "JBSWY3DPEHPK3PXP" "Test" 1]> ∅)).
Proof.
  split; [reflexivity|].
  apply (add_key_suffixing ∅ "Test" "bob"); reflexivity.
Defined.

(** ** The manual entry path *)

Lemma remove_char_app (c : ascii) (s1 s2 : string) :
  remove_char c (s1 +:+ s2) = remove_char c s1 +:+ remove_char c s2.
Proof.
  induction s1 as [|a s1 IH]; simpl; [done|].
  case_decide; simpl; by rewrite IH.
Qed.

Lemma upper_length (s : string) : String.length (upper s) = String.length s.
Proof. induction s; simpl; auto. Qed.

Lemma string_of_list_ascii_app (l1 l2 : list ascii) :
  string_of_list_ascii (l1 ++ l2) =
  string_of_list_ascii l1 +:+ string_of_list_ascii l2.
Proof. induction l1 as [|a l1 IH]; simpl; [done|]. by rewrite IH. Qed.

Lemma kept_app (s1 s2 : string) : kept (s1 +:+ s2) = kept s1 +:+ kept s2.
Proof. unfold kept. by rewrite !remove_char_app. Qed.

Lemma kept_length_cons (a : ascii) (s : string) :
  String.length (kept (String a s)) =
  String.length (kept (String a EmptyString)) + String.length (kept s).
Proof.
  change (String a s) with (String a EmptyString +:+ s).
  by rewrite kept_app, string_length_app.
Qed.

Lemma kept_length_rev (s : string) :
  String.length (kept (rev_string s)) = String.length (kept s).
Proof.
  induction s as [|a s IH]; [done|].
  unfold rev_string in *. simpl.
  rewrite string_of_list_ascii_app, kept_app, string_length_app, IH.
  rewrite (kept_length_cons a s). simpl. lia.
Qed.

Lemma lstrip_ws_suffix (s : string) : exists p, s = p +:+ lstrip_ws s.
Proof.
  induction s as [|a s IH]; simpl; [by exists EmptyString|].
  destruct (py_isspace a).
  - destruct IH as [p Hp]. exists (String a p). rewrite Hp at 1. reflexivity.
  - by exists EmptyString.
Qed.

Lemma kept_length_lstrip (s : string) :
  String.length (kept (lstrip_ws s)) <= String.length (kept s).
Proof.
  destruct (lstrip_ws_suffix s) as [p Hp].
  rewrite Hp at 2. rewrite kept_app, string_length_app. lia.
Qed.

(** The dialog's count on [secret.strip()] is at most the length of the
    cleaned secret. *)
Lemma kept_strip_le_clean (s : string) :
  String.length (kept (strip s)) <= String.length (clean_secret s).
Proof.
  unfold strip, clean_secret. rewrite upper_length. fold (kept s).
  rewrite kept_length_rev.
  etransitivity; [apply kept_length_lstrip|].
  rewrite kept_length_rev. apply kept_length_lstrip.
Qed.

(** ** C1: the "too short" check *)

(** C1 (counterexample): [add_account_manual] has no length check:
    "short" cleans to "SHORT", which pyotp decodes, and the account is
    added. *)
Lemma add_manual_accepts_short :
  add_account_manual ∅ "bob" "short" "Test" 0 =
  (<["Test_bob" := Rec {| rec_secret := "SHORT"; rec_account := "bob";
                          rec_issuer := "Test"; rec_added := 0 |}]> ∅, true).
Proof. vm_compute. reflexivity. Qed.

(** C1 (amended): the length check lives in [ManualEntryDialog.accept].
    Whenever the cleaned secret is shorter than 16 characters, the manual
    entry path rejects the input with one of the dialog's messages and
    leaves the store as it is, never reaching [add_account_manual]; the
    message is the distinct "too short" one unless the account name or the
    secret is blank (those are checked first).  [add_account_manual]
    itself accepts "short"; "JBSWY3DPEHPK3PXP" is accepted by both. *)
Theorem manual_entry_too_short (S : store) (service account secret : string)
    (now : timestamp) :
  String.length (clean_secret secret) < MIN_SECRET_LENGTH ->
  (show_manual_entry S service account secret now).1 = S /\
  (exists e, (show_manual_entry S service account secret now).2 =
             ManualRejected e) /\
  (strip account <> "" -> strip secret <> "" ->
   show_manual_entry S service account secret now =
   (S, ManualRejected ErrSecretTooShort)) /\
  (add_account_manual S "bob" "short" "Test" now).2 = true /\
  (add_account_manual S "bob" "JBSWY3DPEHPK3PXP" "Test" now).2 = true /\
  (show_manual_entry S "Test" "bob" "JBSWY3DPEHPK3PXP" now).2 = ManualAdded.
Proof.
  intros Hshort.
  assert (Hk : String.length (kept (strip secret)) < MIN_SECRET_LENGTH).
  { pose proof (kept_strip_le_clean secret). lia. }
  assert (Hrej : strip account <> "" -> strip secret <> "" ->
                 show_manual_entry S service account secret now =
                 (S, ManualRejected ErrSecretTooShort)).
  { intros Ha Hs. unfold show_manual_entry, manual_entry_accept.
    rewrite decide_False by done. rewrite decide_False by done.
    fold (kept (strip secret)).
    apply Nat.ltb_lt in Hk. by rewrite Hk. }
  split; [|split; [|split; [exact Hrej|]]].
  - unfold show_manual_entry, manual_entry_accept.
    case_decide; [done|]. case_decide; [done|].
    fold (kept (strip secret)). apply Nat.ltb_lt in Hk. by rewrite Hk.
  - destruct (decide (strip account = "")) as [Ha|Ha].
    + exists ErrNoAccount. unfold show_manual_entry, manual_entry_accept.
      by rewrite decide_True.
    + destruct (decide (strip secret = "")) as [Hs|Hs].
      * exists ErrNoSecret. unfold show_manual_entry, manual_entry_accept.
        rewrite decide_False by done. by rewrite decide_True.
      * exists ErrSecretTooShort. by rewrite Hrej.
  - split; [reflexivity|]. split; [reflexivity|].
    unfold show_manual_entry. vm_compute. reflexivity.
Qed.

Lemma manual_entry_too_short_witness :
  String.length (clean_secret "short") < MIN_SECRET_LENGTH /\
  show_manual_entry ∅ "Test" "bob" "short" 0 =
  (∅, ManualRejected ErrSecretTooShort).
Proof.
  split; [vm_compute; lia|].
  apply (manual_entry_too_short ∅ "Test" "bob" "short" 0);
    [vm_compute; lia | discriminate | discriminate].
Defined.

(** ** The QR path *)

(** C2: a lower-case secret from a QR code passes pyotp's check
    ([casefold=True]) and [add_account_from_qr] stores it as it came,
    without the cleaning that [add_account_manual] applies. *)
Theorem qr_add_keeps_raw_secret :
  extract_secret (Some "otpauth://totp/Example:alice?secret=jbswy3dpehpk3pxp")
  = Some {| qr_secret := "jbswy3dpehpk3pxp"; qr_account := "alice";
            qr_issuer := "Example" |} /\
  add_account_from_qr ∅ {| qr_secret := "jbswy3dpehpk3pxp";
                           qr_account := "alice";
                           qr_issuer := "Example" |} 0 =
  (<["Example_alice" := Rec {| rec_secret := "jbswy3dpehpk3pxp";
                               rec_account := "alice";
                               rec_issuer := "Example";
                               rec_added := 0 |}]> ∅, true) /\
  clean_secret "jbswy3dpehpk3pxp" = "JBSWY3DPEHPK3PXP" /\
  "jbswy3dpehpk3pxp" <> clean_secret "jbswy3dpehpk3pxp".
Proof.
  split; [reflexivity|]. split; [vm_compute; reflexivity|].
  split; [reflexivity | discriminate].
Qed.

(** C5: when the label (the URI path without its leading '/') contains a
    colon, the text before the first colon is the issuer from the label
    and the rest is the account; the issuer from the label replaces the
    [issuer] query parameter exactly when that parameter is absent or is
    "Unknown".  The spec's example parses as stated. *)
Theorem parse_label_issuer (raw path query issuer_from_path acc : string)
    (r : qr_data) :
  urlparse_path_query raw = (path, query) ->
  split_first ":"%char (lstrip_char "/"%char path) =
    Some (issuer_from_path, acc) ->
  extract_secret (Some raw) = Some r ->
  qr_account r = acc /\
  qr_issuer r = issuer_with_label query issuer_from_path /\
  extract_secret (Some "otpauth://totp/Example:alice@example.com?secret=JBSWY3DPEHPK3PXP&issuer=Example")
  = Some {| qr_secret := "JBSWY3DPEHPK3PXP";
            qr_account := "alice@example.com"; qr_issuer := "Example" |}.
Proof.
  intros Hurl Hsplit H.
  split; [|split; [|reflexivity]];
  unfold extract_secret in H;
  destruct (startswith _ raw); simpl in H; try discriminate;
  rewrite Hurl, Hsplit in H;
  destruct (qs_get "secret" query) as [s|]; try discriminate;
  case_decide; try discriminate; injection H as <-; simpl; [done|].
  unfold issuer_with_label.
  by destruct (qs_get "issuer" query) as [i|].
Qed.

Lemma parse_label_issuer_witness :
  qr_issuer {| qr_secret := "JBSWY3DPEHPK3PXP"; qr_account := "bob";
               qr_issuer := "Ex" |} =
  issuer_with_label "secret=JBSWY3DPEHPK3PXP&issuer=Unknown" "Ex".
Proof.
  apply (parse_label_issuer
           "otpauth://totp/Ex:bob?secret=JBSWY3DPEHPK3PXP&issuer=Unknown"
           "/Ex:bob" "secret=JBSWY3DPEHPK3PXP&issuer=Unknown" "Ex" "bob");
    reflexivity.
Defined.

(** C6: [extract_secret] returns [None] on [None], on a string without the
    "otpauth://totp/" prefix and on a URI without a (non-empty) [secret]
    parameter; a returned record always carries the first [secret] value
    of the query. *)
Theorem parse_none_cases :
  extract_secret None = None /\
  (forall raw, startswith "otpauth://totp/" raw = false ->
     extract_secret (Some raw) = None) /\
  (forall raw, qs_get "secret" (urlparse_path_query raw).2 = None ->
     extract_secret (Some raw) = None) /\
  (forall raw r, extract_secret (Some raw) = Some r ->
     startswith "otpauth://totp/" raw = true /\
     qs_get "secret" (urlparse_path_query raw).2 = Some (qr_secret r) /\
     qr_secret r <> "") /\
  extract_secret (Some "not-a-totp-uri") = None.
Proof.
  split; [done|]. split; [|split; [|split; [|reflexivity]]].
  - intros raw H. unfold extract_secret. by rewrite H.
  - intros raw H. unfold extract_secret.
    destruct (startswith _ raw); simpl; [|done].
    destruct (urlparse_path_query raw) as [path query]. simpl in H.
    rewrite H. by destruct (split_first _ _) as [[??]|].
  - intros raw r H. unfold extract_secret in H.
    destruct (startswith _ raw); simpl in H; [|discriminate].
    destruct (urlparse_path_query raw) as [path query]. simpl.
    destruct (split_first _ _) as [[??]|];
    destruct (qs_get "secret" query) as [sec|]; try discriminate;
    case_decide; try discriminate; injection H as <-; simpl; done.
Qed.

Lemma parse_none_cases_witness :
  extract_secret (Some "otpauth://totp/Ex:bob?issuer=Ex") = None /\
  extract_secret (Some "https://totp/Ex:bob?secret=JBSWY3DPEHPK3PXP") = None.
Proof.
  destruct parse_none_cases as (_ & Hpre & Hsec & _).
  split; [apply Hsec | apply Hpre]; reflexivity.
Defined.

(** ** Export and import *)

(** No key of [imported] is in the empty store. *)
Lemma no_conflicts_with_empty (imported : store) :
  filter (fun kv : string * entry => is_Some ((∅ : store) !! kv.1)) imported
  = ∅.
Proof.
  apply map_eq. intros k. rewrite lookup_empty.
  apply map_lookup_filter_None_2. right. intros x _.
  rewrite lookup_empty. simpl. by intros [? ?].
Qed.

(** C3 (counterexample): an empty store is not exported at all
    ("No accounts to export"), so there is no document to import. *)
Lemma export_empty_store_refused :
  export_accounts ∅ 0 = None.
Proof. reflexivity. Qed.

(** C3 (amended): every non-empty store [S] exports to a document with
    version "1.0", its accounts and the export time, and importing that
    document into an empty store gives back [S] exactly, whatever the
    conflict answer (there are no conflicts). *)
Theorem export_import_roundtrip (S : store) (now : timestamp) :
  S <> ∅ ->
  exists doc, export_accounts S now = Some doc /\
    doc_version doc = "1.0" /\ doc_accounts doc = S /\
    doc_exported_at doc = now /\
    forall choice, import_accounts ∅ doc choice = S.
Proof.
  intros Hne. unfold export_accounts. rewrite decide_False by done.
  eexists. split; [reflexivity|]. split; [done|]. split; [done|].
  split; [done|]. intros choice. unfold import_accounts. simpl.
  rewrite no_conflicts_with_empty, decide_True by done.
  apply (right_id ∅ (∪)).
Qed.

Lemma export_import_roundtrip_witness :
  exists doc,
    export_accounts {["Test_bob" := Bare "JBSWY3DPEHPK3PXP"]} 5 = Some doc /\
    doc_version doc = "1.0" /\
    doc_accounts doc = {["Test_bob" := Bare "JBSWY3DPEHPK3PXP"]} /\
    doc_exported_at doc = 5%Q /\
    forall choice, import_accounts ∅ doc choice =
                   {["Test_bob" := Bare "JBSWY3DPEHPK3PXP"]}.
Proof.
  apply export_import_roundtrip.
  intros E. apply (f_equal (lookup "Test_bob")) in E.
  rewrite lookup_singleton_eq, lookup_empty in E. discriminate.
Defined.

(** ** Loading *)

(** C7: a document that is an object with both "salt" and "data" keys
    (the old encrypted format, in particular one with exactly these keys)
    empties the store and [load_secrets] returns [True]; nothing of the
    document is kept. *)
Theorem load_legacy_document (secrets : json)
    (fields : list (string * json)) :
  has_key "salt" fields = true -> has_key "data" fields = true ->
  load_secrets secrets (FileJson (JObj fields)) = (JObj [], true) /\
  startup_load (FileJson (JObj [("salt", JStr "x"); ("data", JStr "y")]))
  = (JObj [], true).
Proof.
  intros Hs Hd. split; [|reflexivity].
  simpl. by rewrite Hs, Hd.
Qed.

Lemma load_legacy_document_witness :
  load_secrets (JObj [("Test_bob", JStr "JBSWY3DPEHPK3PXP")])
    (FileJson (JObj [("salt", JStr "x"); ("data", JStr "y")]))
  = (JObj [], true).
Proof. apply load_legacy_document; reflexivity. Defined.

(** C8 (code bug): a missing file gives an empty store and [True], and a
    file that cannot be opened or parsed leaves the empty start-up store
    with [False]; in both cases the start-up refresh does not raise.  But a
    file that parses to a value that is not a well-formed store (not an
    object with both "salt" and "data") is adopted as it is and
    [load_secrets] returns [True]; when some code cannot be generated from
    it (for example [null], [[1, "a", null]] or [{"k": 5}]) the start-up
    refresh raises, [main] reports "Fatal Error" and the UI does not start. *)
Theorem load_corrupt_document_fatal (data : json) :
  (forall fields, data = JObj fields ->
     has_key "salt" fields && has_key "data" fields = false) ->
  refresh_raises data = true ->
  startup_load (FileJson data) = (data, true) /\
  refresh_raises (startup_load (FileJson data)).1 = true /\
  startup_load FileMissing = (JObj [], true) /\
  refresh_raises (startup_load FileMissing).1 = false /\
  startup_load FileUnreadable = (JObj [], false) /\
  refresh_raises (startup_load FileUnreadable).1 = false /\
  refresh_raises JNull = true /\
  refresh_raises (JArr [JNum 1; JStr "a"; JNull]) = true /\
  refresh_raises (JObj [("k", JNum 5)]) = true.
Proof.
  intros Hlegacy Hraise.
  assert (Hload : startup_load (FileJson data) = (data, true)).
  { unfold startup_load. simpl.
    destruct data as [| | | | |fields]; try done.
    by rewrite (Hlegacy fields eq_refl). }
  rewrite Hload. cbn [fst].
  repeat split; try assumption; reflexivity.
Qed.

Lemma load_corrupt_document_fatal_witness :
  startup_load (FileJson (JObj [("k", JNum 5)])) = (JObj [("k", JNum 5)], true) /\
  refresh_raises (startup_load (FileJson (JObj [("k", JNum 5)]))).1 = true.
Proof.
  destruct (load_corrupt_document_fatal (JObj [("k", JNum 5)]))
    as (H1 & H2 & _).
  - intros fields E. injection E as <-. reflexivity.
  - reflexivity.
  - split; [exact H1|exact H2].
Defined.

(** ** Renaming *)

Lemma rename_account_spec (S : store) (k : string) (r : account_record)
    (svc acc : string) :
  S !! k = Some (Rec r) ->
  exists j,
    rename_account S k svc acc =
      RenameDone (<[candidate (key_base svc acc) j := renamed_record r svc acc]>
                   (if decide (candidate (key_base svc acc) j = k) then S
                    else delete k S))
                 (candidate (key_base svc acc) j) /\
    (S !! candidate (key_base svc acc) j = None \/
     candidate (key_base svc acc) j = k) /\
    (forall m, m < j -> is_Some (S !! candidate (key_base svc acc) m) /\
                        candidate (key_base svc acc) m <> k).
Proof.
  intros Hk. unfold rename_account. rewrite Hk.
  set (taken := fun k' => in_store S k' && bool_decide (k' <> k)).
  destruct (first_free_spec S taken (key_base svc acc))
    as (j & Heq & Hfree & Hbefore).
  { intros k' Ht. subst taken. simpl in Ht.
    by apply andb_prop in Ht as [? _]. }
  exists j. rewrite Heq. split; [reflexivity|]. split.
  - subst taken. simpl in Hfree. apply andb_false_iff in Hfree as [Hf|Hf].
    + left. unfold in_store in Hf. apply bool_decide_eq_false in Hf.
      by apply eq_None_not_Some.
    + right. apply bool_decide_eq_false in Hf.
      destruct (decide (candidate (key_base svc acc) j = k)); [done|].
      by contradiction Hf.
  - intros m Hm. specialize (Hbefore m Hm). subst taken. simpl in Hbefore.
    apply andb_prop in Hbefore as [Hin Hne].
    unfold in_store in Hin. apply bool_decide_eq_true in Hin.
    by apply bool_decide_eq_true in Hne.
Qed.

(** C9 (code bug): the rename dialog is meant to do nothing when the
    entries are left at the row's issuer and account, but the row's cells
    come back from the tree through [int()] where they look like numbers,
    and a [str] never equals an [int].  With "X_12345" taken, "X_12345_1"
    free and an X/12345 record under "X_12345_2", pressing OK without
    editing renames that record to its own pair X/12345, which moves it to
    "X_12345_1".  The same layout with account "y" does nothing. *)
Theorem rename_unchanged_numeric_moves :
  let r1 := {| rec_secret := "JBSWY3DPEHPK3PXP"; rec_account := "12345";
               rec_issuer := "X"; rec_added := 1 |} in
  let r2 := {| rec_secret := "KRSXG5CTMVRXEZLU"; rec_account := "12345";
               rec_issuer := "X"; rec_added := 2 |} in
  let S : store := <["X_12345_2" := Rec r2]> (<["X_12345" := Rec r1]> ∅) in
  let y1 := {| rec_secret := "JBSWY3DPEHPK3PXP"; rec_account := "y";
               rec_issuer := "X"; rec_added := 1 |} in
  let y2 := {| rec_secret := "KRSXG5CTMVRXEZLU"; rec_account := "y";
               rec_issuer := "X"; rec_added := 2 |} in
  let T : store := <["X_y_2" := Rec y2]> (<["X_y" := Rec y1]> ∅) in
  tree_row S "X_12345_2" = Some (TkStr "X", TkInt 12345) /\
  rename_account_gui S "X_12345_2" (tk_str (TkStr "X")) (tk_str (TkInt 12345))
  = Some (RenameDone (<["X_12345_1" := Rec r2]> (<["X_12345" := Rec r1]> ∅))
                     "X_12345_1") /\
  tree_row T "X_y_2" = Some (TkStr "X", TkStr "y") /\
  rename_account_gui T "X_y_2" (tk_str (TkStr "X")) (tk_str (TkStr "y"))
  = None.
Proof. vm_compute. repeat split; reflexivity. Qed.

(** ** The countdown *)

(** On a timestamp since the epoch, [int(t)] is [floor(t)]. *)
Lemma py_int_floor (t : Q) : (0 <= t)%Q -> py_int t = Qfloor t.
Proof.
  destruct t as [n d]. unfold Qle, py_int, Qfloor. simpl. intros H.
  apply Zquot_Zdiv_pos; lia.
Qed.

(** C10: for every timestamp [t] (seconds since the epoch, so [t >= 0]),
    [get_time_remaining t = 30 - (floor t mod 30)], it lies in [1, 30], it
    does not increase while [floor t / 30] (the window) stays the same, it
    is 30 exactly on the first second of a window, in particular at every
    window boundary [30k]. *)
Theorem time_remaining_window (t : Q) :
  (0 <= t)%Q ->
  get_time_remaining t = (30 - Qfloor t mod 30)%Z /\
  (1 <= get_time_remaining t <= 30)%Z /\
  (forall t', (t <= t')%Q -> (Qfloor t / 30 = Qfloor t' / 30)%Z ->
     (get_time_remaining t' <= get_time_remaining t)%Z) /\
  (get_time_remaining t = 30%Z <-> (Qfloor t mod 30 = 0)%Z) /\
  (forall k : Z, (0 <= k)%Z -> get_time_remaining (inject_Z (30 * k)) = 30%Z).
Proof.
  intros Ht. unfold get_time_remaining, TOTP_PERIOD.
  rewrite (py_int_floor t Ht).
  pose proof (Z.mod_pos_bound (Qfloor t) 30 ltac:(lia)) as Hb.
  split; [done|]. split; [lia|]. split; [|split; [lia|]].
  - intros t' Hle Hw.
    assert (Ht' : (0 <= t')%Q) by (eapply Qle_trans; eauto).
    rewrite (py_int_floor t' Ht').
    pose proof (Qfloor_resp_le t t' Hle) as Hf.
    rewrite (Z.mod_eq (Qfloor t) 30), (Z.mod_eq (Qfloor t') 30), Hw by lia.
    lia.
  - intros k Hk. unfold py_int. simpl.
    rewrite Z.quot_1_r, Z.mul_comm, Z_mod_mult. lia.
Qed.

Lemma time_remaining_window_witness :
  get_time_remaining (1234567 # 10) = 24%Z /\
  get_time_remaining (inject_Z 60) = 30%Z.
Proof.
  split.
  - destruct (time_remaining_window (1234567 # 10)) as [H _];
      [unfold Qle; simpl; lia|].
    rewrite H. reflexivity.
  - destruct (time_remaining_window 0%Q) as (_ & _ & _ & _ & H);
      [apply Qle_refl|].
    apply (H 2%Z). lia.
Defined.

(* ================================================================== *)
(** * Further properties of the store operations *)

(** ** Adding and removing accounts *)

(** X1: a successful add (manual or from a QR code) writes under a key
    that was absent, so the store grows by exactly one entry, and
    [remove_account] on that key reports [True] and gives back the
    original store. *)
Theorem add_then_remove_roundtrip (S : store) (name secret issuer : string)
    (q : qr_data) (now : timestamp) :
  totp_ok (clean_secret secret) = true -> totp_ok (qr_secret q) = true ->
  let kman := unique_key S (key_base issuer name) in
  let kqr := unique_key S (key_base (qr_issuer q) (qr_account q)) in
  S !! kman = None /\
  size (add_account_manual S name secret issuer now).1 = size S + 1 /\
  remove_account (add_account_manual S name secret issuer now).1 kman
    = (S, true) /\
  S !! kqr = None /\
  size (add_account_from_qr S q now).1 = size S + 1 /\
  remove_account (add_account_from_qr S q now).1 kqr = (S, true).
Proof.
  intros Hman Hqr kman kqr.
  assert (Fm : S !! kman = None) by apply unique_key_fresh.
  assert (Fq : S !! kqr = None) by apply unique_key_fresh.
  unfold add_account_manual, add_account_from_qr.
  rewrite Hman, Hqr. fold kman kqr. cbn [fst].
  unfold remove_account, in_store.
  rewrite !bool_decide_eq_true_2 by (rewrite lookup_insert_eq; by eexists).
  rewrite !map_size_insert_None, !delete_insert_id by done.
  repeat split; try done; lia.
Qed.

Lemma add_then_remove_roundtrip_witness :
  remove_account
    (add_account_manual {["Test_bob" := Bare "JBSWY3DPEHPK3PXP"]}
       "bob" "jbsw y3dp-ehpk 3pxp" "Test" 0).1 "Test_bob_1"
  = ({["Test_bob" := Bare "JBSWY3DPEHPK3PXP"]}, true).
Proof.
  destruct (add_then_remove_roundtrip {["Test_bob" := Bare "JBSWY3DPEHPK3PXP"]}
              "bob" "jbsw y3dp-ehpk 3pxp" "Test"
              {| qr_secret := "JBSWY3DPEHPK3PXP"; qr_account := "bob";
                 qr_issuer := "Test" |} 0 ltac:(reflexivity) ltac:(reflexivity))
    as (_ & _ & H & _).
  exact H.
Defined.

(** X3: [remove_account] on a missing key returns [False] and keeps the
    store; on a present key it returns [True], the store loses exactly
    that key and every other key keeps its value. *)
Theorem remove_account_spec (S : store) (k : string) :
  (S !! k = None -> remove_account S k = (S, false)) /\
  (is_Some (S !! k) ->
     (remove_account S k).2 = true /\
     size (remove_account S k).1 = pred (size S) /\
     (remove_account S k).1 !! k = None /\
     (forall k', k' <> k -> (remove_account S k).1 !! k' = S !! k')).
Proof.
  unfold remove_account, in_store. split.
  - intros H. rewrite bool_decide_eq_false_2; [done|].
    rewrite H. by intros [? ?].
  - intros H. rewrite bool_decide_eq_true_2 by done. cbn [fst snd].
    split; [done|]. split; [by apply map_size_delete_Some|].
    split; [by rewrite lookup_delete_eq|].
    intros k' Hne. by rewrite lookup_delete_ne.
Qed.

Lemma remove_account_spec_witness :
  remove_account {["Test_bob" := Bare "JBSWY3DPEHPK3PXP"]} "Other_x"
  = ({["Test_bob" := Bare "JBSWY3DPEHPK3PXP"]}, false) /\
  (remove_account {["Test_bob" := Bare "JBSWY3DPEHPK3PXP"]} "Test_bob").2
  = true.
Proof.
  split.
  - apply (remove_account_spec {["Test_bob" := Bare "JBSWY3DPEHPK3PXP"]}
             "Other_x"). reflexivity.
  - apply (remove_account_spec {["Test_bob" := Bare "JBSWY3DPEHPK3PXP"]}
             "Test_bob"). vm_compute. by eexists.
Defined.

(** ** Stored secrets and code generation *)

(** X4: "every stored secret passes pyotp's check" is kept by both add
    paths, by [remove_account] and by a completed rename; on a store where
    it holds, [generate_code] never raises: it returns [None] exactly for a
    missing key and otherwise the code of the stored secret (the string
    itself for a legacy bare-string entry). *)
Theorem valid_store_invariant (S : store) :
  secrets_valid S ->
  (forall name secret issuer now,
     secrets_valid (add_account_manual S name secret issuer now).1) /\
  (forall q now, secrets_valid (add_account_from_qr S q now).1) /\
  (forall k, secrets_valid (remove_account S k).1) /\
  (forall k svc acc S' k', rename_account S k svc acc = RenameDone S' k' ->
     secrets_valid S') /\
  (forall k, generate_code S k =
     match S !! k with
     | None => CodeMissing
     | Some e => CodeFor (entry_secret e)
     end).
Proof.
  intros HS. split; [|split; [|split; [|split]]].
  - intros name secret issuer now. unfold add_account_manual.
    destruct (totp_ok (clean_secret secret)) eqn:E; cbn [fst]; [|done].
    by apply map_Forall_insert_2.
  - intros q now. unfold add_account_from_qr.
    destruct (totp_ok (qr_secret q)) eqn:E; cbn [fst]; [|done].
    by apply map_Forall_insert_2.
  - intros k. unfold remove_account.
    destruct (in_store S k); cbn [fst]; [by apply map_Forall_delete|done].
  - intros k svc acc S' k' H. unfold rename_account in H.
    destruct (S !! k) as [[r|s]|] eqn:Hk; try discriminate.
    injection H as <- _. apply map_Forall_insert_2.
    + exact (HS k (Rec r) Hk).
    + case_decide; [done|by apply map_Forall_delete].
  - intros k. unfold generate_code.
    destruct (S !! k) as [e|] eqn:Hk; [|done].
    by rewrite (HS k e Hk).
Qed.

Lemma valid_store_invariant_witness :
  secrets_valid {["Test_bob" := Bare "JBSWY3DPEHPK3PXP"]} /\
  generate_code {["Test_bob" := Bare "JBSWY3DPEHPK3PXP"]} "Test_bob"
  = CodeFor "JBSWY3DPEHPK3PXP".
Proof.
  assert (H : secrets_valid {["Test_bob" := Bare "JBSWY3DPEHPK3PXP"]})
    by (refine (bool_decide_unpack (secrets_valid _) _); vm_compute; reflexivity).
  split; [exact H|].
  destruct (valid_store_invariant _ H) as (_ & _ & _ & _ & Hg).
  rewrite Hg. reflexivity.
Defined.

(** ** Renaming *)

(** X5: [rename_account] reports a missing key, crashes on a legacy
    bare-string entry, and otherwise keeps the number of accounts: the
    keys afterwards are the old ones without [k], plus the new key, and
    the account under the new key produces the same code as the old one
    did under [k]. *)
Theorem rename_account_outcomes (S : store) (k svc acc : string) :
  (S !! k = None -> rename_account S k svc acc = RenameNotFound) /\
  (forall s, S !! k = Some (Bare s) ->
     rename_account S k svc acc = RenameCrash) /\
  (forall S' k', rename_account S k svc acc = RenameDone S' k' ->
     size S' = size S /\
     dom S' = {[k']} ∪ (dom S ∖ {[k]}) /\
     generate_code S' k' = generate_code S k).
Proof.
  split; [|split].
  - intros H. unfold rename_account. by rewrite H.
  - intros s H. unfold rename_account. by rewrite H.
  - intros S' k' H.
    destruct (S !! k) as [[r|s]|] eqn:Hk;
      [|unfold rename_account in H; rewrite Hk in H; discriminate
       |unfold rename_account in H; rewrite Hk in H; discriminate].
    destruct (rename_account_spec S k r svc acc Hk)
      as (j & Heq & Hfree & _).
    rewrite H in Heq. injection Heq as -> ->.
    set (c := candidate (key_base svc acc) j) in *.
    split; [|split].
    + case_decide as Hc.
      * rewrite map_size_insert_Some; [done|]. rewrite Hc, Hk. by eexists.
      * destruct Hfree as [Hf|Hf]; [|done].
        rewrite map_size_insert_None by (rewrite lookup_delete_ne; done).
        rewrite map_size_delete_Some by (rewrite Hk; by eexists).
        assert (size S <> 0).
        { intros E. apply map_size_empty_inv in E. subst S.
          by rewrite lookup_empty in Hk. }
        lia.
    + destruct (decide (c = k)) as [Hc|Hc].
      * rewrite dom_insert_L, Hc. apply set_eq. intros x.
        rewrite !elem_of_union, elem_of_difference, elem_of_singleton.
        destruct (decide (x = k)); tauto.
      * rewrite dom_insert_L, dom_delete_L. done.
    + unfold generate_code. rewrite lookup_insert_eq, Hk. reflexivity.
Qed.

Lemma rename_account_outcomes_witness :
  rename_account {["Test_bob" := Bare "JBSWY3DPEHPK3PXP"]} "Test_bob" "A" "b"
  = RenameCrash /\
  rename_account {["Test_bob" := Bare "JBSWY3DPEHPK3PXP"]} "Other_x" "A" "b"
  = RenameNotFound.
Proof.
  split.
  - apply (rename_account_outcomes {["Test_bob" := Bare "JBSWY3DPEHPK3PXP"]}
             "Test_bob" "A" "b") with (s := "JBSWY3DPEHPK3PXP").
    vm_compute. reflexivity.
  - apply (rename_account_outcomes {["Test_bob" := Bare "JBSWY3DPEHPK3PXP"]}
             "Other_x" "A" "b").
    vm_compute. reflexivity.
Defined.

(** ** Importing *)

(** X6: the three answers to the conflict question.  "No" (skip) keeps
    every account already in the store and adds the imported accounts
    under the other keys; "Yes" (replace) lets every imported account win
    and keeps the rest; "Cancel" with at least one conflicting key leaves
    the store as it was; without conflicts the answer is not asked for and
    the result is the replace merge. *)
Theorem import_policies (S : store) (doc : export_doc) :
  (forall k, import_accounts S doc ChooseSkip !! k =
     match S !! k with
     | Some e => Some e
     | None => doc_accounts doc !! k
     end) /\
  (forall k, import_accounts S doc ChooseReplace !! k =
     match doc_accounts doc !! k with
     | Some e => Some e
     | None => S !! k
     end) /\
  ((exists k, is_Some (S !! k) /\ is_Some (doc_accounts doc !! k)) ->
     import_accounts S doc ChooseCancel = S) /\
  ((forall k, S !! k = None \/ doc_accounts doc !! k = None) ->
     forall choice, import_accounts S doc choice = doc_accounts doc ∪ S).
Proof.
  unfold import_accounts.
  set (I := doc_accounts doc).
  set (conflicts := filter (fun kv : string * entry => is_Some (S !! kv.1)) I).
  split; [|split; [|split]].
  - intros k. destruct (decide (conflicts = ∅)) as [Hc|Hc].
    + rewrite lookup_union.
      destruct (S !! k) as [e|] eqn:Hs, (I !! k) as [x|] eqn:Hi; try done.
      exfalso. apply (map_filter_empty_not_lookup _ _ k x Hc); [|done].
      simpl. rewrite Hs. by eexists.
    + rewrite lookup_union, map_lookup_filter.
      destruct (S !! k) as [e|] eqn:Hs, (I !! k) as [x|] eqn:Hi;
        simpl; try done.
      * rewrite option_guard_False by (simpl; rewrite Hs; done). done.
      * rewrite option_guard_True by (simpl; rewrite Hs; done). done.
  - intros k.
    destruct (decide (conflicts = ∅)); rewrite lookup_union;
      destruct (I !! k), (S !! k); done.
  - intros (k & [e Hs] & [x Hi]).
    rewrite decide_False; [done|]. intros Hc.
    apply (map_filter_empty_not_lookup _ _ k x Hc); [|done].
    simpl. rewrite Hs. by eexists.
  - intros Hno choice.
    assert (Hc : conflicts = ∅).
    { apply map_eq. intros k. rewrite lookup_empty.
      apply map_lookup_filter_None_2.
      destruct (Hno k) as [Hs|Hi]; [right|left; done].
      intros x _. simpl. rewrite Hs. by intros [? ?]. }
    rewrite decide_True by done. reflexivity.
Qed.

Lemma import_policies_witness :
  import_accounts {["Test_bob" := Bare "JBSWY3DPEHPK3PXP"]}
    {| doc_version := "1.0";
       doc_accounts := {["Test_bob" := Bare "KRSXG5CTMVRXEZLU"]};
       doc_exported_at := 0 |} ChooseCancel
  = {["Test_bob" := Bare "JBSWY3DPEHPK3PXP"]}.
Proof.
  apply (import_policies {["Test_bob" := Bare "JBSWY3DPEHPK3PXP"]}
    {| doc_version := "1.0";
       doc_accounts := {["Test_bob" := Bare "KRSXG5CTMVRXEZLU"]};
       doc_exported_at := 0 |}).
  exists "Test_bob". vm_compute. split; by eexists.
Defined.

(** ** Listing *)

(** X7: [list_accounts] has exactly the keys of the store, and after a
    successful manual add it is the previous listing plus the new key,
    showing the account name, the issuer and the time of the add. *)
Theorem list_accounts_after_add (S : store) (name secret issuer : string)
    (now : timestamp) :
  dom (list_accounts S) = dom S /\
  (totp_ok (clean_secret secret) = true ->
   list_accounts (add_account_manual S name secret issuer now).1 =
   <[unique_key S (key_base issuer name) :=
       {| info_account := name; info_issuer := issuer; info_added := now |}]>
     (list_accounts S)).
Proof.
  split.
  - apply set_eq. intros k. rewrite !elem_of_dom.
    unfold list_accounts. rewrite map_lookup_imap.
    destruct (S !! k); simpl; split; intros [? ?]; try discriminate; by eexists.
  - intros Hok. rewrite add_account_manual_ok by done. cbn [fst].
    apply map_eq. intros k. unfold list_accounts.
    rewrite map_lookup_imap.
    destruct (decide (k = unique_key S (key_base issuer name))) as [->|Hne].
    + rewrite !lookup_insert_eq. reflexivity.
    + rewrite !lookup_insert_ne by done. by rewrite map_lookup_imap.
Qed.

Lemma list_accounts_after_add_witness :
  list_accounts
    (add_account_manual ∅ "bob" "JBSWY3DPEHPK3PXP" "Test" 7).1 =
  {["Test_bob" := {| info_account := "bob"; info_issuer := "Test";
                     info_added := 7 |}]}.
Proof.
  destruct (list_accounts_after_add ∅ "bob" "JBSWY3DPEHPK3PXP" "Test" 7)
    as [_ H].
  rewrite H by reflexivity. reflexivity.
Defined.

(** ** The rename dialog *)

(** X8: through [RenameDialog] the GUI never renames to a blank service or
    account.  When the row's issuer and account do not look like numbers,
    entries that strip to them do nothing; every other non-blank entry,
    and any entry at all when a row value looks like a number (it comes
    back as an [int], which no entry equals), renames with the stripped
    entries. *)
Theorem rename_gui_entries (S : store) (k svc acc : string)
    (info : account_info) :
  k <> "" -> list_accounts S !! k = Some info ->
  (strip svc = "" \/ strip acc = "" ->
     rename_account_gui S k svc acc = None) /\
  (py_int_of_string (info_issuer info) = None ->
   py_int_of_string (info_account info) = None ->
   strip svc = info_issuer info -> strip acc = info_account info ->
     rename_account_gui S k svc acc = None) /\
  (strip svc <> "" -> strip acc <> "" ->
   strip svc <> info_issuer info \/ strip acc <> info_account info \/
   is_Some (py_int_of_string (info_issuer info)) \/
   is_Some (py_int_of_string (info_account info)) ->
     rename_account_gui S k svc acc =
     Some (rename_account S k (strip svc) (strip acc))).
Proof.
  intros Hk Hinfo.
  unfold rename_account_gui, tree_row, rename_dialog_accept.
  rewrite decide_False by done. rewrite Hinfo.
  split; [|split].
  - intros [H|H]; rewrite H; simpl; [done|]. by case_decide.
  - intros Hi Ha Hs Hac. unfold tk_convert. rewrite Hi, Ha.
    cbn zeta. rewrite Hs, Hac. cbn [str_eq_value].
    destruct (decide (info_issuer info = "")); [done|].
    destruct (decide (info_account info = "")); [done|].
    by rewrite !bool_decide_eq_true_2.
  - intros Hs Ha Hd. rewrite decide_False by done.
    rewrite decide_False by done.
    assert (Hneq : str_eq_value (strip svc) (tk_convert (info_issuer info))
                   && str_eq_value (strip acc) (tk_convert (info_account info))
                   = false).
    { unfold tk_convert.
      destruct (py_int_of_string (info_issuer info)) eqn:Ei,
               (py_int_of_string (info_account info)) eqn:Ea;
        cbn [str_eq_value]; try done.
      + by rewrite andb_false_r.
      + destruct Hd as [Hd|[Hd|[[? ?]|[? ?]]]]; try discriminate.
        * by rewrite bool_decide_eq_false_2.
        * by rewrite (bool_decide_eq_false_2 (strip acc = _)), andb_false_r. }
    by rewrite Hneq.
Qed.

Lemma rename_gui_entries_witness :
  let r := {| rec_secret := "JBSWY3DPEHPK3PXP"; rec_account := "12345";
              rec_issuer := "X"; rec_added := 1 |} in
  rename_account_gui {["X_12345" := Rec r]} "X_12345" "X" "12345"
  = Some (rename_account {["X_12345" := Rec r]} "X_12345" "X" "12345") /\
  rename_account_gui {["Test_bob" := Bare "JBSWY3DPEHPK3PXP"]} "Test_bob"
    " Unknown " "Test_bob" = None.
Proof.
  intros r. split.
  - destruct (rename_gui_entries {["X_12345" := Rec r]} "X_12345" "X" "12345"
                {| info_account := "12345"; info_issuer := "X";
                   info_added := 1 |}) as (_ & _ & H);
      [discriminate|vm_compute; reflexivity|].
    apply H; [discriminate|discriminate|].
    right. right. right. vm_compute. by eexists.
  - destruct (rename_gui_entries {["Test_bob" := Bare "JBSWY3DPEHPK3PXP"]}
                "Test_bob" " Unknown " "Test_bob"
                {| info_account := "Test_bob"; info_issuer := "Unknown";
                   info_added := 0 |}) as (_ & H & _);
      [discriminate|vm_compute; reflexivity|].
    apply H; vm_compute; reflexivity.
Defined.

(** ** Secret cleaning *)

Lemma ascii_upper_idem (a : ascii) : ascii_upper (ascii_upper a) = ascii_upper a.
Proof. destruct a as [[] [] [] [] [] [] [] []]; reflexivity. Qed.

Lemma ascii_upper_not_lower (a : ascii) : is_lower (ascii_upper a) = false.
Proof. destruct a as [[] [] [] [] [] [] [] []]; reflexivity. Qed.

Lemma ascii_upper_space_dash (a : ascii) :
  (ascii_upper a = " "%char -> a = " "%char) /\
  (ascii_upper a = "-"%char -> a = "-"%char).
Proof.
  destruct a as [[] [] [] [] [] [] [] []];
    split; intros H; vm_compute in H; (reflexivity || discriminate).
Qed.

Lemma upper_idem (s : string) : upper (upper s) = upper s.
Proof. induction s as [|a s IH]; simpl; [done|]. by rewrite IH, ascii_upper_idem. Qed.

Lemma upper_no_lower (s : string) :
  all_chars (fun a => negb (is_lower a)) (upper s) = true.
Proof.
  induction s as [|a s IH]; simpl; [done|].
  by rewrite ascii_upper_not_lower, IH.
Qed.

Lemma no_char_remove_self (c : ascii) (s : string) :
  no_char c (remove_char c s) = true.
Proof.
  unfold no_char. induction s as [|a s IH]; simpl; [done|].
  case_decide; [done|]. simpl. by rewrite bool_decide_eq_false_2, IH.
Qed.

Lemma no_char_remove (c d : ascii) (s : string) :
  no_char c s = true -> no_char c (remove_char d s) = true.
Proof.
  unfold no_char. induction s as [|a s IH]; simpl; [done|].
  intros H. apply andb_prop in H as [Ha Hs].
  destruct (decide (a = d)); simpl; [auto|].
  apply andb_true_intro. split; [exact Ha|auto].
Qed.

Lemma remove_char_id (c : ascii) (s : string) :
  no_char c s = true -> remove_char c s = s.
Proof.
  unfold no_char. induction s as [|a s IH]; simpl; [done|].
  intros H. apply andb_prop in H as [Ha Hs].
  rewrite decide_False; [by rewrite IH|].
  intros ->. by rewrite bool_decide_eq_true_2 in Ha.
Qed.

Lemma no_char_upper (c : ascii) (s : string) :
  (forall a, ascii_upper a = c -> a = c) ->
  no_char c s = true -> no_char c (upper s) = true.
Proof.
  intros Hc. unfold no_char. induction s as [|a s IH]; simpl; [done|].
  intros H. apply andb_prop in H as [Ha Hs]. rewrite IH by done.
  rewrite bool_decide_eq_false_2; [done|].
  intros E. apply Hc in E. subst. by rewrite bool_decide_eq_true_2 in Ha.
Qed.

(** X9: the secret [add_account_manual] stores has no space, no '-' and
    no lowercase letter, and cleaning it again changes nothing, so adding
    an already cleaned secret does the same as adding the raw one. *)
Theorem clean_secret_normal (secret : string) :
  no_char " "%char (clean_secret secret) = true /\
  no_char "-"%char (clean_secret secret) = true /\
  all_chars (fun a => negb (is_lower a)) (clean_secret secret) = true /\
  clean_secret (clean_secret secret) = clean_secret secret /\
  (forall S name issuer now,
     add_account_manual S name (clean_secret secret) issuer now =
     add_account_manual S name secret issuer now).
Proof.
  set (t := remove_char "-"%char (remove_char " "%char secret)).
  assert (Hsp : no_char " "%char t = true)
    by (apply no_char_remove, no_char_remove_self).
  assert (Hda : no_char "-"%char t = true) by apply no_char_remove_self.
  assert (Usp : no_char " "%char (upper t) = true)
    by (apply no_char_upper; [apply ascii_upper_space_dash|done]).
  assert (Uda : no_char "-"%char (upper t) = true)
    by (apply no_char_upper; [apply ascii_upper_space_dash|done]).
  assert (Hidem : clean_secret (clean_secret secret) = clean_secret secret).
  { unfold clean_secret. fold t.
    rewrite (remove_char_id " "%char (upper t)) by done.
    rewrite (remove_char_id "-"%char (upper t)) by done.
    apply upper_idem. }
  unfold clean_secret at 1 2 3. fold t.
  split; [done|]. split; [done|]. split; [apply upper_no_lower|].
  split; [exact Hidem|].
  intros S name issuer now. unfold add_account_manual. by rewrite Hidem.
Qed.

(** ** The countdown *)

(** X10: the countdown repeats every [TOTP_PERIOD] seconds. *)
Theorem time_remaining_periodic (t : Q) :
  (0 <= t)%Q -> get_time_remaining (t + 30) = get_time_remaining t.
Proof.
  intros Ht. unfold get_time_remaining.
  assert (Ht' : (0 <= t + 30)%Q).
  { apply (Qle_trans _ t); [done|]. rewrite <- (Qplus_0_r t) at 1.
    apply Qplus_le_compat; [apply Qle_refl|unfold Qle; simpl; lia]. }
  rewrite (py_int_floor t Ht), (py_int_floor _ Ht').
  assert (Hf : Qfloor (t + 30) = (Qfloor t + 30)%Z).
  { destruct t as [n d]. unfold Qfloor, Qplus. cbn [Qnum Qden].
    rewrite Z.mul_1_r, Pos.mul_1_r. apply Z.div_add. lia. }
  rewrite Hf. unfold TOTP_PERIOD.
  rewrite <- (Z.mul_1_l 30) at 2. rewrite Z_mod_plus_full. reflexivity.
Qed.

Lemma time_remaining_periodic_witness :
  get_time_remaining ((1234567 # 10) + 30) = get_time_remaining (1234567 # 10).
Proof. apply time_remaining_periodic. unfold Qle. simpl. lia. Defined.

(** ** Manual entry *)

(** The dialog and the add: either the account was added, under the key
    derived from the stripped fields, or the store is unchanged. *)
Lemma show_manual_entry_cases (S S' : store)
    (service account secret : string) (now : timestamp) (o : manual_outcome) :
  show_manual_entry S service account secret now = (S', o) ->
  let issuer := if decide (strip service = "") then "Manual"
                else strip service in
  (o = ManualAdded /\
   S' = <[unique_key S (key_base issuer (strip account)) :=
            manual_record (strip account) (strip secret) issuer now]> S /\
   strip account <> "" /\
   MIN_SECRET_LENGTH <= String.length (kept (strip secret))) \/
  (o <> ManualAdded /\ S' = S).
Proof.
  intros H issuer. unfold show_manual_entry, manual_entry_accept in H.
  fold issuer in H.
  destruct (decide (strip account = "")) as [Ha|Ha];
    [injection H as <- <-; right; by split|].
  destruct (decide (strip secret = "")) as [Hs|Hs];
    [injection H as <- <-; right; by split|].
  destruct (String.length (remove_char "-"%char (remove_char " "%char
              (strip secret))) <? MIN_SECRET_LENGTH) eqn:Hl;
    [injection H as <- <-; right; by split|].
  destruct (totp_ok (clean_secret (strip secret))) eqn:Hok.
  - rewrite add_account_manual_ok in H by done.
    injection H as <- <-. left. split; [done|]. split; [done|].
    split; [done|]. apply Nat.ltb_ge in Hl. exact Hl.
  - unfold add_account_manual in H. rewrite Hok in H.
    injection H as <- <-. right. by split.
Qed.

(** X11: the store after the manual-entry flow.  When the user sees the
    dialog's own error or "Invalid secret data", the store is unchanged.
    Otherwise the account is in the store, under a key that was free and
    derived from the stripped fields (issuer "Manual" for a blank service),
    with the stripped and cleaned secret, a non-blank account name and at
    least [MIN_SECRET_LENGTH] characters besides spaces and dashes; and it
    stays there whatever the user sees: "Added", "Failed to save account"
    when the save fails, or "Dialog Error" when the refresh raises. *)
Theorem show_manual_entry_effect (S S' : store)
    (service account secret : string) (now : timestamp)
    (save_ok refresh_ok : bool) (msg : manual_message) :
  show_manual_entry_gui S service account secret now save_ok refresh_ok
  = (S', msg) ->
  let issuer := if decide (strip service = "") then "Manual"
                else strip service in
  let key := unique_key S (key_base issuer (strip account)) in
  (((exists e, msg = MsgRejected e) \/ msg = MsgInvalid) /\ S' = S) \/
  (msg = (if save_ok then (if refresh_ok then MsgAdded else MsgDialogError)
          else MsgSaveFailed) /\
   S !! key = None /\
   S' = <[key := manual_record (strip account) (strip secret) issuer now]> S /\
   strip account <> "" /\
   MIN_SECRET_LENGTH <= String.length (kept (strip secret))).
Proof.
  intros H issuer key. unfold show_manual_entry_gui in H.
  destruct (show_manual_entry S service account secret now) as [S0 o] eqn:E.
  injection H as <- <-.
  destruct (show_manual_entry_cases S S0 service account secret now o E)
    as [(-> & -> & Ha & Hl)|[Hne ->]].
  - right. split; [done|]. split; [apply unique_key_fresh|]. done.
  - left. split; [|done].
    destruct o as [e| |]; [left; by eexists|right; done|done].
Qed.

Lemma show_manual_entry_effect_witness :
  show_manual_entry_gui ∅ "  " " bob " "jbsw y3dp ehpk 3pxp" 3 false true
  = ({["Manual_bob" := manual_record "bob" "jbsw y3dp ehpk 3pxp" "Manual" 3]},
     MsgSaveFailed).
Proof.
  destruct (show_manual_entry_gui ∅ "  " " bob " "jbsw y3dp ehpk 3pxp" 3
              false true) as [S' msg] eqn:E.
  destruct (show_manual_entry_effect ∅ S' "  " " bob " "jbsw y3dp ehpk 3pxp"
              3 false true msg E) as [[[[e He]|Hi] _]|(Hm & _ & HS & _)].
  - subst msg. vm_compute in E. discriminate E.
  - subst msg. vm_compute in E. discriminate E.
  - rewrite Hm, HS. reflexivity.
Defined.

(** ** Parsing an otpauth URI *)

Lemma str_app_nil_r (s : string) : s +:+ "" = s.
Proof. induction s as [|a s IH]; [done|]. change (String a (s +:+ "") = String a s). by rewrite IH. Qed.

Lemma str_app_assoc (s1 s2 s3 : string) :
  (s1 +:+ s2) +:+ s3 = s1 +:+ (s2 +:+ s3).
Proof.
  induction s1 as [|a s1 IH]; [done|].
  change (String a ((s1 +:+ s2) +:+ s3) = String a (s1 +:+ (s2 +:+ s3))).
  by rewrite IH.
Qed.

Lemma no_char_app (c : ascii) (s1 s2 : string) :
  no_char c (s1 +:+ s2) = no_char c s1 && no_char c s2.
Proof.
  unfold no_char. induction s1 as [|a s1 IH]; [done|].
  change (negb (bool_decide (a = c)) && all_chars (fun a => negb (bool_decide (a = c))) (s1 +:+ s2)
          = (negb (bool_decide (a = c)) && all_chars (fun a => negb (bool_decide (a = c))) s1)
            && all_chars (fun a => negb (bool_decide (a = c))) s2).
  rewrite IH. apply andb_assoc.
Qed.

Lemma no_char_cons (c a : ascii) (s : string) :
  no_char c (String a s) = true -> a <> c /\ no_char c s = true.
Proof.
  unfold no_char. simpl. intros H. apply andb_prop in H as [Ha Hs].
  split; [|done]. intros ->. by rewrite bool_decide_eq_true_2 in Ha.
Qed.

Lemma strip_prefix_app (p r : string) : strip_prefix p (p +:+ r) = Some r.
Proof.
  induction p as [|a p IH]; [done|].
  change (strip_prefix (String a p) (String a (p +:+ r)) = Some r).
  simpl. by rewrite decide_True.
Qed.

Lemma split_first_none (c : ascii) (s : string) :
  no_char c s = true -> split_first c s = None.
Proof.
  induction s as [|a s IH]; intros H; [done|].
  apply no_char_cons in H as [Ha Hs]. simpl.
  rewrite decide_False by done. by rewrite IH.
Qed.

Lemma split_first_app (c : ascii) (a s : string) :
  no_char c a = true ->
  split_first c (a +:+ s) =
  match split_first c s with
  | Some (l, r) => Some (a +:+ l, r)
  | None => None
  end.
Proof.
  induction a as [|x a IH]; intros H.
  - destruct (split_first c s) as [[l r]|] eqn:E; exact E.
  - apply no_char_cons in H as [Hx Ha].
    change (split_first c (String x (a +:+ s)) =
            match split_first c s with
            | Some (l, r) => Some (String x (a +:+ l), r)
            | None => None
            end).
    simpl. rewrite decide_False by done. rewrite IH by done.
    by destruct (split_first c s) as [[l r]|].
Qed.

Lemma rev_string_cons (a : ascii) (s : string) :
  rev_string (String a s) = rev_string s +:+ String a "".
Proof.
  unfold rev_string. simpl. by rewrite string_of_list_ascii_app.
Qed.

Lemma rev_string_involutive (s : string) : rev_string (rev_string s) = s.
Proof.
  unfold rev_string.
  by rewrite list_ascii_of_string_of_list_ascii, rev_involutive,
    string_of_list_ascii_of_string.
Qed.

Lemma split_all_aux_app (c : ascii) (a s acc : string) :
  no_char c a = true ->
  split_all_aux c (a +:+ s) acc = split_all_aux c s (rev_string a +:+ acc).
Proof.
  revert acc. induction a as [|x a IH]; intros acc H; [done|].
  apply no_char_cons in H as [Hx Ha].
  change (split_all_aux c (String x (a +:+ s)) acc =
          split_all_aux c s (rev_string (String x a) +:+ acc)).
  simpl. rewrite decide_False by done. rewrite IH by done.
  by rewrite rev_string_cons, str_app_assoc.
Qed.

(** [s.split(c)] on [a + c + b] with [c] in neither part. *)
Lemma split_all_two (c : ascii) (a b : string) :
  no_char c a = true -> no_char c b = true ->
  split_all c (a +:+ String c b) = [a; b].
Proof.
  intros Ha Hb. unfold split_all.
  rewrite split_all_aux_app by done. simpl. rewrite decide_True by done.
  rewrite <- (str_app_nil_r b) at 1.
  rewrite split_all_aux_app by done. simpl.
  by rewrite !str_app_nil_r, !rev_string_involutive.
Qed.

Lemma replace_char_id (a b : ascii) (s : string) :
  no_char a s = true -> replace_char a b s = s.
Proof.
  induction s as [|x s IH]; intros H; [done|].
  apply no_char_cons in H as [Hx Hs]. simpl.
  rewrite decide_False by done. by rewrite IH.
Qed.

Lemma unquote_id (s : string) : no_char "%"%char s = true -> unquote s = s.
Proof.
  induction s as [|x s IH]; intros H; [done|].
  apply no_char_cons in H as [Hx Hs]. simpl.
  rewrite decide_False by done. by rewrite IH.
Qed.

Lemma plain_value_spec (v : string) :
  plain_value v = true ->
  v <> "" /\ no_char "?"%char v = true /\ no_char "#"%char v = true /\
  no_char "009"%char v = true /\ no_char "010"%char v = true /\
  no_char "013"%char v = true /\ no_char "&"%char v = true /\
  no_char "%"%char v = true /\ no_char "+"%char v = true.
Proof.
  unfold plain_value, plain_label. intros H.
  repeat match goal with
  | H : _ && _ = true |- _ => apply andb_prop in H as [? ?]
  end.
  repeat split; try done.
  match goal with H : negb (bool_decide _) = true |- _ =>
    apply negb_true_iff, bool_decide_eq_false in H; exact H end.
Qed.

(** One [name=value] piece of a query with plain parts. *)
Lemma qs_pair_plain (name v : string) :
  name <> "" -> no_char "="%char name = true ->
  no_char "+"%char name = true -> no_char "%"%char name = true ->
  plain_value v = true ->
  qs_pair (name +:+ String "=" v) = Some (name, v).
Proof.
  intros Hn Hne Hnp Hnq Hv.
  destruct (plain_value_spec v Hv) as (Hv0 & _ & _ & _ & _ & _ & _ & Hvq & Hvp).
  unfold qs_pair. rewrite decide_False.
  2:{ intros E. destruct name as [|a name]; [by apply Hn|discriminate E]. }
  rewrite split_first_app by done. simpl.
  rewrite str_app_nil_r, decide_False by done.
  by rewrite !replace_char_id, !unquote_id.
Qed.

Lemma str_app_cons (a : ascii) (s r : string) :
  String a s +:+ r = String a (s +:+ r).
Proof. reflexivity. Qed.

Lemma otpauth_uri_no_char (c : ascii) (label secret issuer : string) :
  no_char c "otpauth://totp/?secret=&issuer=" = true ->
  no_char c label = true -> no_char c secret = true ->
  no_char c issuer = true ->
  no_char c (otpauth_uri label secret issuer) = true.
Proof.
  intros Hc Hl Hs Hi. unfold otpauth_uri. rewrite !no_char_app, Hl, Hs, Hi.
  change "otpauth://totp/?secret=&issuer=" with
    ("otpauth://totp/" +:+ "?secret=" +:+ "&issuer=") in Hc.
  rewrite !no_char_app in Hc.
  apply andb_prop in Hc as [-> Hc]. apply andb_prop in Hc as [-> ->].
  reflexivity.
Qed.

Lemma plain_label_spec (label : string) :
  plain_label label = true ->
  no_char "?"%char label = true /\ no_char "#"%char label = true /\
  no_char "009"%char label = true /\ no_char "010"%char label = true /\
  no_char "013"%char label = true.
Proof.
  unfold plain_label. intros H.
  repeat match goal with
  | H : _ && _ = true |- _ => apply andb_prop in H as [? ?]
  end.
  repeat split; done.
Qed.

(** [urlparse] on an exported URI: the path is the label after its '/',
    the query is everything after the '?'. *)
Lemma urlparse_otpauth_uri (label secret issuer : string) :
  plain_label label = true -> plain_value secret = true ->
  plain_value issuer = true ->
  urlparse_path_query (otpauth_uri label secret issuer) =
  ("/" +:+ label, "secret=" +:+ secret +:+ "&issuer=" +:+ issuer).
Proof.
  intros Hl Hs Hi.
  destruct (plain_label_spec label Hl) as (Hlq & Hlh & Hlt & Hln & Hlr).
  destruct (plain_value_spec secret Hs) as (_ & Hsq & Hsh & Hst & Hsn & Hsr & _).
  destruct (plain_value_spec issuer Hi) as (_ & Hiq & Hih & Hit & Hin & Hir & _).
  unfold urlparse_path_query, remove_unsafe.
  rewrite (remove_char_id "009"%char)
    by (apply otpauth_uri_no_char; done).
  rewrite (remove_char_id "013"%char)
    by (apply otpauth_uri_no_char; done).
  rewrite (remove_char_id "010"%char)
    by (apply otpauth_uri_no_char; done).
  assert (Hp : strip_prefix "otpauth://totp" (otpauth_uri label secret issuer)
    = Some ("/" +:+ label +:+ "?secret=" +:+ secret +:+ "&issuer=" +:+ issuer))
    by exact (strip_prefix_app "otpauth://totp"
      ("/" +:+ label +:+ "?secret=" +:+ secret +:+ "&issuer=" +:+ issuer)).
  rewrite Hp.
  cbn iota beta.
  rewrite (split_first_none "#"%char)
    by (rewrite !no_char_app, Hlh, Hsh, Hih; reflexivity).
  rewrite (split_first_app "?"%char "/") by reflexivity.
  rewrite (split_first_app "?"%char label) by exact Hlq.
  rewrite (str_app_cons "?"%char "secret=").
  simpl. by rewrite str_app_nil_r.
Qed.

(** [parse_qs] on the query of an exported URI. *)
Lemma qs_get_otpauth_query (secret issuer : string) :
  plain_value secret = true -> plain_value issuer = true ->
  qs_get "secret" ("secret=" +:+ secret +:+ "&issuer=" +:+ issuer)
  = Some secret /\
  qs_get "issuer" ("secret=" +:+ secret +:+ "&issuer=" +:+ issuer)
  = Some issuer.
Proof.
  intros Hs Hi.
  destruct (plain_value_spec secret Hs) as (_ & _ & _ & _ & _ & _ & Hsa & _).
  destruct (plain_value_spec issuer Hi) as (_ & _ & _ & _ & _ & _ & Hia & _).
  assert (Hq : parse_qsl ("secret=" +:+ secret +:+ "&issuer=" +:+ issuer)
               = [("secret", secret); ("issuer", issuer)]).
  { unfold parse_qsl. rewrite decide_False by (intros E; discriminate E).
    rewrite <- (str_app_assoc "secret=" secret).
    rewrite (str_app_cons "&"%char "issuer=").
    rewrite split_all_two.
    2:{ rewrite no_char_app, Hsa. reflexivity. }
    2:{ rewrite no_char_app, Hia. reflexivity. }
    change ("secret=" +:+ secret) with ("secret" +:+ String "=" secret).
    change ("issuer=" +:+ issuer) with ("issuer" +:+ String "=" issuer).
    simpl.
    rewrite (qs_pair_plain "secret" secret) by (done || discriminate).
    rewrite (qs_pair_plain "issuer" issuer) by (done || discriminate).
    reflexivity. }
  unfold qs_get. rewrite Hq. split; reflexivity.
Qed.

(** X13: decoding an exported URI
    "otpauth://totp/LABEL?secret=SECRET&issuer=ISSUER" whose parts need no
    escaping gives back the secret and the issuer; the account is the
    label when it has no ':', and the part after the first ':' otherwise,
    the part before it being the issuer only when the query says
    "issuer=Unknown". *)
Theorem extract_secret_otpauth (label secret issuer : string) :
  plain_label label = true -> startswith "/" label = false ->
  plain_value secret = true -> plain_value issuer = true ->
  (no_char ":"%char label = true ->
   extract_secret (Some (otpauth_uri label secret issuer)) =
   Some {| qr_secret := secret; qr_account := label; qr_issuer := issuer |}) /\
  (forall ip acc, label = ip +:+ String ":" acc -> no_char ":"%char ip = true ->
   extract_secret (Some (otpauth_uri label secret issuer)) =
   Some {| qr_secret := secret; qr_account := acc;
           qr_issuer := if decide (issuer = "Unknown") then ip else issuer |}).
Proof.
  intros Hl Hslash Hs Hi.
  destruct (qs_get_otpauth_query secret issuer Hs Hi) as [Hqs Hqi].
  destruct (plain_value_spec secret Hs) as (Hs0 & _).
  assert (Hstart : startswith "otpauth://totp/"
                     (otpauth_uri label secret issuer) = true).
  { unfold startswith, otpauth_uri. by rewrite strip_prefix_app. }
  assert (Hpath : lstrip_char "/"%char ("/" +:+ label) = label).
  { rewrite (str_app_cons "/"%char ""). simpl.
    change (lstrip_char "/"%char label = label).
    destruct label as [|a l]; [done|].
    unfold startswith in Hslash. simpl in Hslash. simpl.
    destruct (decide ("/"%char = a)) as [<-|Ha]; [discriminate Hslash|].
    rewrite decide_False by congruence. done. }
  unfold extract_secret. rewrite Hstart. cbn [negb].
  rewrite urlparse_otpauth_uri by done. cbn iota beta zeta.
  rewrite Hqs, Hqi, Hpath. cbn [default].
  split.
  - intros Hc. rewrite split_first_none by done.
    rewrite decide_False by done. reflexivity.
  - intros ip acc -> Hip. rewrite split_first_app by done.
    simpl. rewrite str_app_nil_r.
    rewrite decide_False by done. reflexivity.
Qed.

Lemma extract_secret_otpauth_witness :
  extract_secret (Some (otpauth_uri "GitHub:alice" "JBSWY3DPEHPK3PXP" "GitHub"))
  = Some {| qr_secret := "JBSWY3DPEHPK3PXP"; qr_account := "alice";
            qr_issuer := "GitHub" |}.
Proof.
  destruct (extract_secret_otpauth "GitHub:alice" "JBSWY3DPEHPK3PXP" "GitHub")
    as [_ H]; [reflexivity|reflexivity|reflexivity|reflexivity|].
  apply (H "GitHub" "alice"); reflexivity.
Defined.

(** ** Composition with code generation and listing *)

(** X14: right after a successful add, [generate_code] on the new key
    does not raise: it uses the cleaned secret for a manual add and the
    secret as decoded for a QR add. *)
Theorem add_then_generate_code (S : store) (name secret issuer : string)
    (q : qr_data) (now : timestamp) :
  totp_ok (clean_secret secret) = true -> totp_ok (qr_secret q) = true ->
  generate_code (add_account_manual S name secret issuer now).1
    (unique_key S (key_base issuer name)) = CodeFor (clean_secret secret) /\
  generate_code (add_account_from_qr S q now).1
    (unique_key S (key_base (qr_issuer q) (qr_account q)))
  = CodeFor (qr_secret q).
Proof.
  intros Hman Hqr. unfold add_account_manual, add_account_from_qr.
  rewrite Hman, Hqr. cbn [fst]. unfold generate_code.
  rewrite !lookup_insert_eq. cbn [entry_secret rec_secret].
  by rewrite Hman, Hqr.
Qed.

Lemma add_then_generate_code_witness :
  generate_code (add_account_manual ∅ "bob" "jbsw-y3dp ehpk3pxp" "Test" 0).1
    "Test_bob" = CodeFor "JBSWY3DPEHPK3PXP".
Proof.
  destruct (add_then_generate_code ∅ "bob" "jbsw-y3dp ehpk3pxp" "Test"
              {| qr_secret := "JBSWY3DPEHPK3PXP"; qr_account := "bob";
                 qr_issuer := "Test" |} 0 ltac:(reflexivity) ltac:(reflexivity))
    as [H _].
  exact H.
Defined.

(** X15: [list_accounts] follows [remove_account]: the listing after a
    removal is the previous listing without that key, and a listing entry
    is never shown for a removed account. *)
Theorem list_accounts_after_remove (S : store) (k : string) :
  list_accounts (remove_account S k).1 = delete k (list_accounts S).
Proof.
  apply map_eq. intros k'. unfold remove_account, list_accounts.
  destruct (in_store S k) eqn:Hin; cbn [fst]; rewrite map_lookup_imap.
  - destruct (decide (k' = k)) as [->|Hne].
    + by rewrite !lookup_delete_eq.
    + rewrite !lookup_delete_ne by done. by rewrite map_lookup_imap.
  - destruct (decide (k' = k)) as [->|Hne].
    + rewrite lookup_delete_eq. unfold in_store in Hin.
      apply bool_decide_eq_false in Hin.
      destruct (S !! k); [by contradiction Hin; eexists|done].
    + rewrite lookup_delete_ne by done. by rewrite map_lookup_imap.
Qed.
